(** * HappyMe health-insights engine (script.js): a shallow embedding

    The program is a browser script.  Its numbers are ECMAScript Numbers, that
    is IEEE 754 binary64 values; they are modelled here by [spec_float] (the
    executable binary64 specification that Rocq borrows from Flocq) with
    precision 53 and maximal exponent 1024, so every arithmetic step below
    rounds exactly as the script does.  Strings are byte strings (the text of
    the script is ASCII except for one emoji, kept as its UTF-8 bytes). *)

From Stdlib Require Import ZArith QArith Qround Qabs Bool List Lia Lqa.
From Stdlib Require Import Ascii String DecimalString.
From Stdlib Require Import Floats.SpecFloat.
Import ListNotations.

Local Open Scope string_scope.

(** ** The part of the ECMAScript runtime the script relies on *)
Module JS.

(** *** Abrupt completions *)

(** The errors the runtime itself throws on the paths of this script; the
    script defines no error class and has no [throw] statement of its own. *)
Inductive Error : Type :=
| TypeError
| RangeError.

(** The [name] property of an error object. *)
Definition error_name (e : Error) : string :=
  match e with
  | TypeError => "TypeError"
  | RangeError => "RangeError"
  end.

Inductive Completion (A : Type) : Type :=
| Normal (a : A)
| Throw (e : Error).
Arguments Normal {A} a.
Arguments Throw {A} e.

Definition bind {A B} (c : Completion A) (k : A -> Completion B) : Completion B :=
  match c with
  | Normal a => k a
  | Throw e => Throw e
  end.

(** *** Numbers *)

Definition prec : Z := 53.
Definition emax : Z := 1024.

Definition number : Type := spec_float.

Definition NaN : number := S754_nan.
Definition Infinity : number := S754_infinity false.

Definition add : number -> number -> number := SFadd prec emax.
Definition sub : number -> number -> number := SFsub prec emax.
Definition mul : number -> number -> number := SFmul prec emax.
Definition div : number -> number -> number := SFdiv prec emax.
Definition lt : number -> number -> bool := SFltb.
Definition le : number -> number -> bool := SFleb.

(** The values a Number can take: the canonical binary64 encodings. *)
Definition is_number (x : number) : bool := valid_binary prec emax x.

Definition is_finite (x : number) : bool :=
  match x with
  | S754_zero _ | S754_finite _ _ _ => true
  | _ => false
  end.

(** The integer [z] as a Number (round to nearest, ties to even). *)
Definition of_Z (z : Z) : number := binary_normalize prec emax z 0 false.

(** The rational [q] as a Number (round to nearest, ties to even): the value
    of a decimal literal of the source text, and of a parsed decimal string. *)
Definition of_Q (q : Q) : number :=
  match Qnum q with
  | Z0 => S754_zero false
  | Zpos n => div (S754_finite false n 0) (S754_finite false (Qden q) 0)
  | Zneg n => div (S754_finite true n 0) (S754_finite false (Qden q) 0)
  end.

(** The rational [m * 2^e]. *)
Definition magnitude (m : positive) (e : Z) : Q :=
  Qmake (Zpos m * 2 ^ Z.max 0 e) (Z.to_pos (2 ^ Z.max 0 (- e))).

(** The exact mathematical value of a finite Number (0 for the others). *)
Definition to_Q (x : number) : Q :=
  match x with
  | S754_finite s m e => if s then Qopp (magnitude m e) else magnitude m e
  | _ => 0%Q
  end.

(** [Math.round]: the closest integer, ties towards +Infinity; the sign of a
    zero result is the sign of the argument. *)
Definition Math_round (x : number) : number :=
  match x with
  | S754_finite s _ _ =>
      let n := Qfloor (to_Q x + (1 # 2)) in
      if (n =? 0)%Z then S754_zero s else of_Z n
  | _ => x
  end.

(** *** Strings *)

(** The strict equality [===] of two strings. *)
Definition strict_eq (a b : string) : bool := String.eqb a b.

Definition dquote : string := String (ascii_of_nat 34) EmptyString.
Definition newline : string := String (ascii_of_nat 10) EmptyString.

Fixpoint repeat_string (n : nat) (s : string) : string :=
  match n with
  | O => EmptyString
  | S n' => s ++ repeat_string n' s
  end.

Definition spaces (n : nat) : string := repeat_string n " ".
Definition zeros (n : Z) : string := repeat_string (Z.to_nat n) "0".

(** The decimal representation of a non-negative integer. *)
Definition decimal (n : Z) : string :=
  NilZero.string_of_uint (N.to_uint (Z.to_N n)).

Definition Qlt_bool (a b : Q) : bool := negb (Qle_bool b a).

Definition Qpow10 (e : Z) : Q := Qpower (inject_Z 10) e.

(** *** Number::toString (radix 10) *)

(** The integer [n] with [10^(n-1) <= x < 10^n], for a positive [x] that is
    not a negative power of ten. *)
Definition decade (x : Q) : Z :=
  if Qle_bool 1 x then Z.of_nat (String.length (decimal (Qfloor x)))
  else 1 - Z.of_nat (String.length (decimal (Qfloor (Qinv x)))).

(** The shortest digit string [s] (of [k] digits, [k] counting up from the
    argument) with [s * 10^(n-k)] converting back to [x]; of the two
    neighbours of [x] on the [k]-digit grid the closer one is taken. *)
Fixpoint shortest_digits (fuel : nat) (k : Z) (x : number) (n : Z) : Z * Z :=
  let scale := Qpow10 (n - k) in
  let v := to_Q x in
  let c := Qfloor (v / scale) in
  let back (d : Z) := SFeqb (of_Q (inject_Z d * scale)) x in
  let below := v - inject_Z c * scale in
  let above := inject_Z (c + 1) * scale - v in
  let pick (d : Z) := if (d =? 10 ^ k)%Z then (1%Z, (n + 1)%Z) else (d, n) in
  match back c, back (c + 1)%Z with
  | true, true =>
      if Qlt_bool below above then pick c
      else if Qlt_bool above below then pick (c + 1)%Z
      else if Z.even c then pick c else pick (c + 1)%Z
  | true, false => pick c
  | false, true => pick (c + 1)%Z
  | false, false =>
      match fuel with
      | O => pick c
      | S fuel' => shortest_digits fuel' (k + 1) x n
      end
  end.

Definition Number_toString (x : number) : string :=
  match x with
  | S754_nan => "NaN"
  | S754_zero _ => "0"
  | S754_infinity s => if s then "-Infinity" else "Infinity"
  | S754_finite sg _ _ =>
      let a := SFabs x in
      let '(s, n) := shortest_digits 17 1 a (decade (to_Q a)) in
      let ds := decimal s in
      let k := Z.of_nat (String.length ds) in
      let body :=
        if ((k <=? n) && (n <=? 21))%Z then ds ++ zeros (n - k)
        else if ((0 <? n) && (n <=? 21))%Z then
          substring 0 (Z.to_nat n) ds ++ "." ++ substring (Z.to_nat n) (Z.to_nat (k - n)) ds
        else if ((-6 <? n) && (n <=? 0))%Z then "0." ++ zeros (- n) ++ ds
        else
          let e := (n - 1)%Z in
          let es := (if (0 <=? e)%Z then "+" else "-") ++ decimal (Z.abs e) in
          if (k =? 1)%Z then ds ++ "e" ++ es
          else substring 0 1 ds ++ "." ++ substring 1 (Z.to_nat (k - 1)) ds ++ "e" ++ es in
      if sg then "-" ++ body else body
  end.

(** *** Number.prototype.toFixed *)

Definition toFixed (x : number) (fractionDigits : Z) : Completion string :=
  let f := fractionDigits in
  if ((f <? 0) || (100 <? f))%Z then Throw RangeError
  else if negb (is_finite x) then Normal (Number_toString x)
  else
    let v := to_Q x in
    let s := if Qlt_bool v 0 then "-" else "" in
    let a := Qabs v in
    if Qle_bool (Qpow10 21) a then Normal (s ++ Number_toString (SFabs x))
    else
      let n := Qfloor (a * Qpow10 f + (1 # 2)) in
      let m := decimal n in
      let m :=
        if (f =? 0)%Z then m
        else
          let k := Z.of_nat (String.length m) in
          let m := if (k <=? f)%Z then zeros (f + 1 - k) ++ m else m in
          let k := Z.of_nat (String.length m) in
          substring 0 (Z.to_nat (k - f)) m ++ "." ++ substring (Z.to_nat (k - f)) (Z.to_nat f) m in
      Normal (s ++ m).

(** The text [x.toFixed(d)] evaluates to (empty if the call throws). *)
Definition fixed (x : number) (d : Z) : string :=
  match toFixed x d with
  | Normal s => s
  | Throw _ => EmptyString
  end.

(** *** parseFloat *)

(** White space and line terminators, as their UTF-8 encodings: the ASCII
    ones (TAB, LF, VT, FF, CR, SP), U+00A0, and the three-byte ones (U+1680,
    U+2000 to U+200A, U+2028, U+2029, U+202F, U+205F, U+3000, U+FEFF). *)
Definition is_white_space (c : ascii) : bool :=
  let n := nat_of_ascii c in
  ((9 <=? n) && (n <=? 13) || (n =? 32))%nat.

Definition is_white_space2 (c1 c2 : ascii) : bool :=
  ((nat_of_ascii c1 =? 194) && (nat_of_ascii c2 =? 160))%nat.

Definition is_white_space3 (c1 c2 c3 : ascii) : bool :=
  let '(a, b, c) := (nat_of_ascii c1, nat_of_ascii c2, nat_of_ascii c3) in
  ((a =? 225) && (b =? 154) && (c =? 128) ||
   (a =? 226) && (b =? 128) &&
     ((128 <=? c) && (c <=? 138) || (c =? 168) || (c =? 169) || (c =? 175)) ||
   (a =? 226) && (b =? 129) && (c =? 159) ||
   (a =? 227) && (b =? 128) && (c =? 128) ||
   (a =? 239) && (b =? 187) && (c =? 191))%nat.

Fixpoint trim_start (s : string) : string :=
  match s with
  | String c1 r1 =>
      if is_white_space c1 then trim_start r1
      else
        match r1 with
        | String c2 r2 =>
            if is_white_space2 c1 c2 then trim_start r2
            else
              match r2 with
              | String c3 r3 => if is_white_space3 c1 c2 c3 then trim_start r3 else s
              | EmptyString => s
              end
        | EmptyString => s
        end
  | EmptyString => s
  end.

Definition digit_value (c : ascii) : option Z :=
  let n := nat_of_ascii c in
  if ((48 <=? n) && (n <=? 57))%nat then Some (Z.of_nat n - 48)%Z else None.

(** Reads a run of decimal digits: the value accumulated on [acc], the
    number of digits read added to [count], and the rest of the string. *)
Fixpoint read_digits (s : string) (acc count : Z) : Z * Z * string :=
  match s with
  | String c r =>
      match digit_value c with
      | Some d => read_digits r (10 * acc + d) (count + 1)
      | None => (acc, count, s)
      end
  | EmptyString => (acc, count, s)
  end.

(** The value of an ExponentPart at the head of [s], 0 when there is none. *)
Definition read_exponent (s : string) : Z :=
  match s with
  | String c r =>
      if (Ascii.eqb c "e" || Ascii.eqb c "E")%char then
        let '(neg, r') :=
          match r with
          | String "-" t => (true, t)
          | String "+" t => (false, t)
          | _ => (false, r)
          end in
        let '(v, cnt, _) := read_digits r' 0 0 in
        if (cnt =? 0)%Z then 0%Z else if neg then (- v)%Z else v
      else 0%Z
  | EmptyString => 0%Z
  end.

(** [parseFloat] of a string: the longest prefix of the trimmed string that
    is a StrDecimalLiteral, converted to the nearest Number. *)
Definition parseFloat_string (input : string) : number :=
  let s := trim_start input in
  let '(neg, s) :=
    match s with
    | String "-" r => (true, r)
    | String "+" r => (false, r)
    | _ => (false, s)
    end in
  if prefix "Infinity" s then S754_infinity neg
  else
    let '(i, ni, s1) := read_digits s 0 0 in
    let '(m, nf, s2) :=
      match s1 with
      | String "." r => read_digits r i 0
      | _ => (i, 0%Z, s1)
      end in
    if (ni + nf =? 0)%Z then NaN
    else if (m =? 0)%Z then S754_zero neg
    else
      let q := (inject_Z m * Qpow10 (read_exponent s2 - nf))%Q in
      of_Q (if neg then Qopp q else q).

(** [parseFloat] of a Number: its argument is first converted to a string. *)
Definition parseFloat_number (x : number) : number :=
  parseFloat_string (Number_toString x).

End JS.

(** ** The script *)
Module HappyMe.
Import JS.

(** A numeric literal of the source text. *)
Definition lit (q : Q) : number := of_Q q.
Arguments lit q%_Q.

(** *** Global state

    The script keeps its two charts in the globals [bmiChart] and
    [weightChart] and writes the diet plan into the page element
    [dietSummary].  A chart is modelled by what the script puts into its
    configuration ([type], [labels] and the data of its single dataset; the
    colours and layout options are left out), the page by the [innerHTML] of
    [dietSummary] and by the charts on which [destroy()] was called.  The
    canvas and container elements are taken to exist. *)

Inductive datum : Type :=
| DString (s : string)
| DNumber (x : number).

Record Chart : Type := {
  type : string;
  labels : list string;
  data : list datum
}.

Record World : Type := {
  bmiChart : option Chart;
  weightChart : option Chart;
  dietSummary : string;
  destroyed : list Chart
}.

(** Statements: state passing with abrupt completion. *)
Definition M (A : Type) : Type := World -> Completion A * World.

Definition ret {A} (a : A) : M A := fun w => (Normal a, w).

Definition bindM {A B} (c : M A) (k : A -> M B) : M B :=
  fun w =>
    match c w with
    | (Normal a, w') => k a w'
    | (Throw e, w') => (Throw e, w')
    end.

Definition lift {A} (c : Completion A) : M A := fun w => (c, w).

Definition modify (f : World -> World) : M unit := fun w => (Normal tt, f w).

Notation "x <- c ;; k" := (bindM c (fun x => k))
  (at level 61, c at next level, right associativity).
Notation "c ;;; k" := (bindM c (fun _ => k))
  (at level 61, right associativity).

(** *** Static data *)

Module HEALTH_DATA.
Definition diets : list (string * list string) :=
  [ ("non-veg", ["Grilled Salmon with Asparagus"; "Chicken Quinoa Bowl"; "Greek Yogurt & Berries"]);
    ("veg", ["Lentil Curry with Brown Rice"; "Roasted Chickpea Salad"; "Cottage Cheese Stir-fry"]);
    ("vegan", ["Tofu Scramble"; "Sweet Potato & Black Bean Tacos"; "Tempeh Buddha Bowl"]) ].
End HEALTH_DATA.

(** What a property read on an object literal of string arrays can give. *)
Inductive value : Type :=
| Undefined
| Array (items : list string)
| Inherited (name : string).

(** The properties every object literal inherits from [Object.prototype];
    none of them is an array. *)
Definition Object_prototype : list string :=
  [ "constructor"; "__defineGetter__"; "__defineSetter__"; "hasOwnProperty";
    "__lookupGetter__"; "__lookupSetter__"; "isPrototypeOf";
    "propertyIsEnumerable"; "toString"; "valueOf"; "__proto__";
    "toLocaleString" ].

Fixpoint own (o : list (string * list string)) (key : string) : option (list string) :=
  match o with
  | [] => None
  | (k, v) :: o' => if strict_eq k key then Some v else own o' key
  end.

(** The property read [o[key]]: own properties first, then the prototype. *)
Definition get (o : list (string * list string)) (key : string) : value :=
  match own o key with
  | Some items => Array items
  | None =>
      if existsb (strict_eq key) Object_prototype then Inherited key
      else Undefined
  end.

(** [items.forEach(callback)], the callback updating a captured variable of
    type [S]; it receives the element and its index.  On anything but an
    array the call itself fails: [undefined] has no properties, and the
    inherited members have no [forEach]. *)
Fixpoint forEach_from {S} (items : list string) (idx : Z)
    (callback : string -> number -> S -> S) (st : S) : S :=
  match items with
  | [] => st
  | x :: rest => forEach_from rest (idx + 1) callback (callback x (of_Z idx) st)
  end.

Definition forEach {S} (v : value) (callback : string -> number -> S -> S) (st : S)
  : Completion S :=
  match v with
  | Array items => Normal (forEach_from items 0 callback st)
  | Undefined | Inherited _ => Throw TypeError
  end.

(** *** Core logic *)

Record FormData : Type := {
  age : number;
  gender : string;
  height : number;
  weight : number;
  activity : string;
  goal : string;
  preference : string
}.

Record HealthResult : Type := {
  bmi : string;
  calories : number;
  category : string
}.

Definition getBMICategory (bmi : number) : string :=
  if lt bmi (lit 18.5) then "underweight"
  else if lt bmi (lit 25) then "normal"
  else if lt bmi (lit 30) then "overweight"
  else "obese".

Definition calculateHealthMetrics (data : FormData) : Completion HealthResult :=
  let '(Build_FormData age gender height weight activity goal _) := data in
  (* BMI Calculation *)
  let heightM := div height (lit 100) in
  let bmi := div weight (mul heightM heightM) in
  (* BMR (Mifflin-St Jeor) *)
  let bmr := sub (add (mul (lit 10) weight) (mul (lit 6.25) height)) (mul (lit 5) age) in
  let bmr := if strict_eq gender "male" then add bmr (lit 5) else sub bmr (lit 161) in
  (* TDEE (Total Daily Energy Expenditure) *)
  let calories := mul bmr (parseFloat_string activity) in
  (* Adjustment based on goal *)
  let calories := if strict_eq goal "lose" then sub calories (lit 500) else calories in
  let calories := if strict_eq goal "gain" then add calories (lit 500) else calories in
  bind (toFixed bmi 1) (fun bmi_fixed =>
  Normal {| bmi := bmi_fixed;
            calories := Math_round calories;
            category := getBMICategory bmi |}).

(** *** UI controllers *)

(** The three template literals of [renderDietPlan], as functions of the
    expressions they embed: the opening paragraph, the block appended for
    one meal ([position] is the text of [idx+1]), and the closing roadmap
    block ([target] is the text chosen by the goal). *)
Definition diet_intro (pref goal : string) : string :=
  "<p style=" ++ dquote ++ "margin-bottom:15px; color:var(--text-muted)" ++ dquote ++
  ">Based on your <strong>" ++ pref ++ "</strong> preference and <strong>" ++ goal ++
  "</strong> goal:</p>".

Definition meal_card (position food : string) : string :=
  newline ++ spaces 12 ++ "<div class=" ++ dquote ++ "diet-item" ++ dquote ++ ">" ++
  newline ++ spaces 16 ++ "<span class=" ++ dquote ++ "badge" ++ dquote ++
    " style=" ++ dquote ++ "margin-right:10px" ++ dquote ++ ">Meal 0" ++
    position ++ "</span>" ++
  newline ++ spaces 16 ++ "<strong>" ++ food ++ "</strong>" ++
  newline ++ spaces 12 ++ "</div>" ++
  newline ++ spaces 8.

Definition weekly_roadmap (target : string) : string :=
  newline ++ spaces 8 ++ "<div class=" ++ dquote ++ "diet-item" ++ dquote ++
    " style=" ++ dquote ++ "border:none; margin-top:10px" ++ dquote ++ ">" ++
  newline ++ spaces 12 ++ "<h4>💡 Weekly Roadmap</h4>" ++
  newline ++ spaces 12 ++ "<p style=" ++ dquote ++
    "font-size:0.9rem; color:var(--text-muted)" ++ dquote ++ ">" ++
  newline ++ spaces 16 ++ "Target change: " ++ target ++ " / week. " ++
  newline ++ spaces 16 ++ "Keep hydration above 3L/day." ++
  newline ++ spaces 12 ++ "</p>" ++
  newline ++ spaces 8 ++ "</div>" ++
  newline ++ spaces 4.

(** The assignment [container.innerHTML = html]. *)
Definition set_dietSummary (html : string) (w : World) : World :=
  {| bmiChart := bmiChart w; weightChart := weightChart w;
     dietSummary := html; destroyed := destroyed w |}.

Definition renderDietPlan (pref goal : string) : M unit :=
  let items := get HEALTH_DATA.diets pref in
  let html := diet_intro pref goal in
  html <- lift (forEach items
                  (fun food idx html =>
                     html ++ meal_card (Number_toString (add idx (lit 1))) food)
                  html) ;;
  let html := html ++ weekly_roadmap (if strict_eq goal "maintain" then "0kg" else "0.5kg") in
  modify (set_dietSummary html).

(** *** Charts *)

(** [if (chart) chart.destroy()] on the chart held by a global. *)
Definition destroy (chart : World -> option Chart) : M unit :=
  modify (fun w =>
    match chart w with
    | Some c => {| bmiChart := bmiChart w; weightChart := weightChart w;
                   dietSummary := dietSummary w; destroyed := c :: destroyed w |}
    | None => w
    end).

(** The per-week change of the roadmap. *)
Definition change (goal : string) : number :=
  if strict_eq goal "lose" then lit (-0.5)
  else if strict_eq goal "gain" then lit 0.5 else lit 0.

(** The loop [for (let i = 0; i < 4; i++)] of the roadmap, with [steps]
    iterations left. *)
Fixpoint roadmap (steps : nat) (change currentWeight : number) (weightData : list string)
  : Completion (list string) :=
  match steps with
  | O => Normal weightData
  | S steps' =>
      let currentWeight := add currentWeight change in
      bind (toFixed currentWeight 1) (fun text =>
      roadmap steps' change currentWeight (weightData ++ [text]))
  end.

Definition renderCharts (bmi : string) (calories : number) (weight : number) (goal : string)
  : M unit :=
  destroy bmiChart ;;;
  destroy weightChart ;;;
  (* BMI Gauge Style Chart *)
  modify (fun w =>
    {| bmiChart := Some {| type := "doughnut";
                           labels := ["Your BMI"; "Optimal"];
                           data := [DString bmi; DNumber (lit 25)] |};
       weightChart := weightChart w;
       dietSummary := dietSummary w; destroyed := destroyed w |}) ;;;
  (* Weight Roadmap Chart *)
  let weightData := [] in
  let labels := ["Week 1"; "Week 2"; "Week 3"; "Week 4"] in
  let currentWeight := parseFloat_number weight in
  let change := change goal in
  weightData <- lift (roadmap 4 change currentWeight weightData) ;;
  modify (fun w =>
    {| bmiChart := bmiChart w;
       weightChart := Some {| type := "line";
                              labels := labels;
                              data := map DString weightData |};
       dietSummary := dietSummary w; destroyed := destroyed w |}).

End HappyMe.

(** ** The specification's vocabulary

    The definitions of this module follow the words of the specification, not
    the script: its formulas (section 4.1, over the same binary64 operations),
    its projection (section 4.2), its diet plan (section 4.3), its constraints
    on a valid input (sections 3 and 4.1) and the inputs of its worked
    examples (section 8).  The theorems compare the script with them. *)
Module Spec.
Import JS HappyMe.

Definition BMI (weightKg heightCm : number) : number :=
  let heightM := div heightCm (lit 100) in
  div weightKg (mul heightM heightM).

(** Mifflin-St Jeor before the gender offset. *)
Definition base (weightKg heightCm age : number) : number :=
  sub (add (mul (lit 10) weightKg) (mul (lit 6.25) heightCm)) (mul (lit 5) age).

Definition BMR (gender : string) (weightKg heightCm age : number) : number :=
  if strict_eq gender "male" then add (base weightKg heightCm age) (lit 5)
  else sub (base weightKg heightCm age) (lit 161).

Definition TDEE (bmr activityFactor : number) : number := mul bmr activityFactor.

(** The energy expenditure of an input: its BMR times its activity factor. *)
Definition TDEE_of (data : FormData) : number :=
  TDEE (BMR (gender data) (weight data) (height data) (age data))
       (parseFloat_string (activity data)).

Definition BMI_of (data : FormData) : number := BMI (weight data) (height data).

(** The goal adjustment of section 4.1, step 4, before rounding. *)
Definition adjusted (tdee : number) (goal : string) : number :=
  if strict_eq goal "lose" then sub tdee (lit 500)
  else if strict_eq goal "gain" then add tdee (lit 500)
  else tdee.

(** Section 4.2: the weight after each of [periods] periods, the delta
    accumulated from period 1 on. *)
Fixpoint projection (periods : nat) (delta start : number) : list number :=
  match periods with
  | O => []
  | S n => add start delta :: projection n delta (add start delta)
  end.

(** A threshold of the category table: a finite Number with a known value. *)
Definition threshold (x : number) (q : Q) : Prop :=
  is_number x = true /\ is_finite x = true /\ (to_Q x == q)%Q.

Definition is_integer (x : number) : bool :=
  is_finite x && Qeq_bool (to_Q x) (inject_Z (Qfloor (to_Q x))).

Definition positive_real (x : number) : bool :=
  is_number x && is_finite x && lt (lit 0) x.

Definition valid_age (age : number) : bool :=
  is_number age && is_integer age && lt (lit 0) age && lt age (lit 150).

Definition one_of (options : list string) (s : string) : bool :=
  existsb (strict_eq s) options.

Definition valid_input (data : FormData) : bool :=
  valid_age (age data) &&
  one_of ["male"; "female"] (gender data) &&
  positive_real (height data) &&
  positive_real (weight data) &&
  positive_real (parseFloat_string (activity data)) &&
  one_of ["lose"; "maintain"; "gain"] (goal data) &&
  one_of ["non-veg"; "veg"; "vegan"] (preference data).

(** Section 8: the worked input (age 30, male, 180 cm, 80 kg, activity
    factor 1.55), for a given goal. *)
Definition worked_input (goal : string) : FormData :=
  {| age := lit 30; gender := "male"; height := lit 180; weight := lit 80;
     activity := "1.55"; goal := goal; preference := "veg" |}.

(** The same person with another height, weight or age. *)
Definition measured (age height weight : number) : FormData :=
  {| age := age; gender := "male"; height := height; weight := weight;
     activity := "1.55"; goal := "maintain"; preference := "veg" |}.

(** Two valid inputs whose energy expenditure lies just below a half:
    a woman of 23, 160 cm and 30 kg who wants to gain (BMR 1024, TDEE
    1600.5 - 2^-42), and an input with BMR 64 and TDEE 200.5 - 2^-45 whose
    goal is to lose. *)
Definition gaining_input : FormData :=
  {| age := lit 23; gender := "female"; height := lit 160; weight := lit 30;
     activity := "1.5629882812499998"; goal := "gain"; preference := "veg" |}.

Definition losing_input : FormData :=
  {| age := lit 20; gender := "female"; height := lit 20; weight := lit 20;
     activity := "3.1328124999999996"; goal := "lose"; preference := "veg" |}.

(** Whether the text [needle] occurs somewhere in the text [page]. *)
Fixpoint contains (page needle : string) : bool :=
  prefix needle page ||
  match page with
  | EmptyString => false
  | String _ rest => contains rest needle
  end.

(** A page on which nothing has been rendered yet. *)
Definition fresh : World :=
  {| bmiChart := None; weightChart := None; dietSummary := ""; destroyed := [] |}.

End Spec.

(** ** The rest of the runtime: storage, [parseInt], [JSON.stringify] *)
Module Browser.
Import JS.

(** *** Web storage

    A storage area maps keys to strings.  [getItem] gives [None] for the
    [null] of a missing key; [setItem] replaces the value of a key in place
    or adds the key.  The area is taken to have room for what the script
    writes (two short items), so [setItem] does not throw. *)
Definition Storage : Type := list (string * string).

Fixpoint getItem (area : Storage) (key : string) : option string :=
  match area with
  | [] => None
  | (k, v) :: rest => if strict_eq k key then Some v else getItem rest key
  end.

Fixpoint setItem (area : Storage) (key value : string) : Storage :=
  match area with
  | [] => [(key, value)]
  | (k, v) :: rest =>
      if strict_eq k key then (k, value) :: rest
      else (k, v) :: setItem rest key value
  end.

(** *** parseInt, with no radix given

    Leading white space is dropped, then a sign, then the prefix [0x] or
    [0X], which makes the radix 16; the longest run of digits of the radix is
    read and whatever follows is ignored.  No digit gives NaN.  (For more
    than 20 decimal digits the language lets an engine round the digits
    first; the value here is the nearest Number of the integer read.) *)
Definition digit_of (radix : Z) (c : ascii) : option Z :=
  let n := Z.of_nat (nat_of_ascii c) in
  let d :=
    if ((48 <=? n) && (n <=? 57))%Z then Some (n - 48)%Z
    else if ((97 <=? n) && (n <=? 122))%Z then Some (n - 87)%Z
    else if ((65 <=? n) && (n <=? 90))%Z then Some (n - 55)%Z
    else None in
  match d with
  | Some v => if (v <? radix)%Z then Some v else None
  | None => None
  end.

(** Reads a run of digits of the radix: the value accumulated on [acc] and
    the number of digits read added to [count]. *)
Fixpoint read_int (radix : Z) (s : string) (acc count : Z) : Z * Z :=
  match s with
  | String c r =>
      match digit_of radix c with
      | Some d => read_int radix r (radix * acc + d) (count + 1)
      | None => (acc, count)
      end
  | EmptyString => (acc, count)
  end.

Definition parseInt (input : string) : number :=
  let s := trim_start input in
  let '(neg, s) :=
    match s with
    | String "-" r => (true, r)
    | String "+" r => (false, r)
    | _ => (false, s)
    end in
  let '(radix, s) :=
    match s with
    | String "0" (String "x" r) => (16%Z, r)
    | String "0" (String "X" r) => (16%Z, r)
    | _ => (10%Z, s)
    end in
  let '(mathInt, count) := read_int radix s 0 0 in
  if (count =? 0)%Z then NaN
  else if (mathInt =? 0)%Z then S754_zero neg
  else of_Z (if neg then - mathInt else mathInt).

(** *** JSON.stringify, on the values the script serializes

    Objects of Numbers and strings, the members in insertion order; a Number
    that is not finite is written [null]; a string is quoted with the
    escapes of QuoteJSONString. *)
#[warnings="-register-all"]
Inductive json : Type :=
| JNumber (x : number)
| JString (s : string)
| JObject (members : list (string * json)).

Definition hex_digit (n : nat) : string :=
  String (ascii_of_nat (if (n <? 10)%nat then 48 + n else 87 + n)) EmptyString.

Definition backslash : string := String (ascii_of_nat 92) EmptyString.

Definition quote_char (c : ascii) : string :=
  let n := nat_of_ascii c in
  if (n =? 8)%nat then backslash ++ "b"
  else if (n =? 9)%nat then backslash ++ "t"
  else if (n =? 10)%nat then backslash ++ "n"
  else if (n =? 12)%nat then backslash ++ "f"
  else if (n =? 13)%nat then backslash ++ "r"
  else if (n =? 34)%nat then backslash ++ dquote
  else if (n =? 92)%nat then backslash ++ backslash
  else if (n <? 32)%nat then
    backslash ++ "u00" ++ hex_digit (n / 16) ++ hex_digit (n mod 16)
  else String c EmptyString.

Fixpoint quote_body (s : string) : string :=
  match s with
  | EmptyString => EmptyString
  | String c r => quote_char c ++ quote_body r
  end.

Definition QuoteJSONString (s : string) : string :=
  dquote ++ quote_body s ++ dquote.

Fixpoint join (separator : string) (parts : list string) : string :=
  match parts with
  | [] => EmptyString
  | [p] => p
  | p :: rest => p ++ separator ++ join separator rest
  end.

Fixpoint stringify (v : json) : string :=
  match v with
  | JNumber x => if is_finite x then Number_toString x else "null"
  | JString s => QuoteJSONString s
  | JObject members =>
      "{" ++
      join "," (map (fun member => QuoteJSONString (fst member) ++ ":" ++ stringify (snd member))
                    members) ++
      "}"
  end.

End Browser.

(** ** The rest of the script: theme, form, result display, persistence

    Not modelled: [generatePDF] (it only drives html2canvas and jsPDF),
    [loadStoredData] (it parses whatever text the storage holds and writes
    to form controls whose accepted values the page, not the script,
    decides) and the [DOMContentLoaded] handler that calls it. *)
Module UI.
Import JS HappyMe Browser.

(** *** The page

    Beside the charts and the diet plan ([world]) the script touches: the
    [data-theme] attribute of the document element ([None] when unset), the
    local storage, the values of the seven form controls, the text of the
    elements [bmiValue], [calorieValue] and [bmiStatus], the colours given
    to the badge [bmiStatus], the button of the form with its text and
    loader, and the class [hidden] of [resultsArea].  A style field holds
    the value the script last gave it.  The elements are taken to exist;
    scrolling the window and [preventDefault] change nothing modelled. *)
Record Form : Type := {
  age_value : string;
  gender_value : string;
  height_value : string;
  weight_value : string;
  activity_value : string;
  goal_value : string;
  preference_value : string
}.

Record Page : Type := {
  world : World;
  data_theme : option string;
  localStorage : Storage;
  form : Form;
  bmiValue : string;
  calorieValue : string;
  bmiStatus : string;
  bmiStatus_background : string;
  bmiStatus_color : string;
  btnText_opacity : string;
  loader_display : string;
  analyzeBtn_disabled : bool;
  resultsArea_hidden : bool
}.

(** Statements over the page. *)
Definition P (A : Type) : Type := Page -> Completion A * Page.

Definition bindP {A B} (c : P A) (k : A -> P B) : P B :=
  fun p =>
    match c p with
    | (Normal a, p') => k a p'
    | (Throw e, p') => (Throw e, p')
    end.

Definition throw {A} (e : Error) : P A := fun p => (Throw e, p).

Definition update (f : Page -> Page) : P unit := fun p => (Normal tt, f p).

Notation "c >> k" := (bindP c (fun _ => k))
  (at level 62, right associativity).

Definition set_world (w : World) (p : Page) : Page :=
  {| world := w; data_theme := data_theme p; localStorage := localStorage p;
     form := form p; bmiValue := bmiValue p; calorieValue := calorieValue p;
     bmiStatus := bmiStatus p; bmiStatus_background := bmiStatus_background p;
     bmiStatus_color := bmiStatus_color p; btnText_opacity := btnText_opacity p;
     loader_display := loader_display p; analyzeBtn_disabled := analyzeBtn_disabled p;
     resultsArea_hidden := resultsArea_hidden p |}.

Definition set_data_theme (theme : string) (p : Page) : Page :=
  {| world := world p; data_theme := Some theme; localStorage := localStorage p;
     form := form p; bmiValue := bmiValue p; calorieValue := calorieValue p;
     bmiStatus := bmiStatus p; bmiStatus_background := bmiStatus_background p;
     bmiStatus_color := bmiStatus_color p; btnText_opacity := btnText_opacity p;
     loader_display := loader_display p; analyzeBtn_disabled := analyzeBtn_disabled p;
     resultsArea_hidden := resultsArea_hidden p |}.

Definition set_localStorage (area : Storage) (p : Page) : Page :=
  {| world := world p; data_theme := data_theme p; localStorage := area;
     form := form p; bmiValue := bmiValue p; calorieValue := calorieValue p;
     bmiStatus := bmiStatus p; bmiStatus_background := bmiStatus_background p;
     bmiStatus_color := bmiStatus_color p; btnText_opacity := btnText_opacity p;
     loader_display := loader_display p; analyzeBtn_disabled := analyzeBtn_disabled p;
     resultsArea_hidden := resultsArea_hidden p |}.

Definition set_bmiValue (text : string) (p : Page) : Page :=
  {| world := world p; data_theme := data_theme p; localStorage := localStorage p;
     form := form p; bmiValue := text; calorieValue := calorieValue p;
     bmiStatus := bmiStatus p; bmiStatus_background := bmiStatus_background p;
     bmiStatus_color := bmiStatus_color p; btnText_opacity := btnText_opacity p;
     loader_display := loader_display p; analyzeBtn_disabled := analyzeBtn_disabled p;
     resultsArea_hidden := resultsArea_hidden p |}.

Definition set_calorieValue (text : string) (p : Page) : Page :=
  {| world := world p; data_theme := data_theme p; localStorage := localStorage p;
     form := form p; bmiValue := bmiValue p; calorieValue := text;
     bmiStatus := bmiStatus p; bmiStatus_background := bmiStatus_background p;
     bmiStatus_color := bmiStatus_color p; btnText_opacity := btnText_opacity p;
     loader_display := loader_display p; analyzeBtn_disabled := analyzeBtn_disabled p;
     resultsArea_hidden := resultsArea_hidden p |}.

(** The badge: its text, and its two colours when the values given are
    colours (a value that is no colour leaves a style as it was). *)
Definition set_bmiStatus (text : string) (p : Page) : Page :=
  {| world := world p; data_theme := data_theme p; localStorage := localStorage p;
     form := form p; bmiValue := bmiValue p; calorieValue := calorieValue p;
     bmiStatus := text; bmiStatus_background := bmiStatus_background p;
     bmiStatus_color := bmiStatus_color p; btnText_opacity := btnText_opacity p;
     loader_display := loader_display p; analyzeBtn_disabled := analyzeBtn_disabled p;
     resultsArea_hidden := resultsArea_hidden p |}.

Definition set_bmiStatus_style (background color : option string) (p : Page) : Page :=
  {| world := world p; data_theme := data_theme p; localStorage := localStorage p;
     form := form p; bmiValue := bmiValue p; calorieValue := calorieValue p;
     bmiStatus := bmiStatus p;
     bmiStatus_background :=
       match background with Some b => b | None => bmiStatus_background p end;
     bmiStatus_color :=
       match color with Some c => c | None => bmiStatus_color p end;
     btnText_opacity := btnText_opacity p;
     loader_display := loader_display p; analyzeBtn_disabled := analyzeBtn_disabled p;
     resultsArea_hidden := resultsArea_hidden p |}.

(** The button of the form: the opacity of its text, the display of its
    loader and its [disabled] flag. *)
Definition set_button (opacity display : string) (disabled : bool) (p : Page) : Page :=
  {| world := world p; data_theme := data_theme p; localStorage := localStorage p;
     form := form p; bmiValue := bmiValue p; calorieValue := calorieValue p;
     bmiStatus := bmiStatus p; bmiStatus_background := bmiStatus_background p;
     bmiStatus_color := bmiStatus_color p; btnText_opacity := opacity;
     loader_display := display; analyzeBtn_disabled := disabled;
     resultsArea_hidden := resultsArea_hidden p |}.

Definition set_resultsArea_hidden (hidden : bool) (p : Page) : Page :=
  {| world := world p; data_theme := data_theme p; localStorage := localStorage p;
     form := form p; bmiValue := bmiValue p; calorieValue := calorieValue p;
     bmiStatus := bmiStatus p; bmiStatus_background := bmiStatus_background p;
     bmiStatus_color := bmiStatus_color p; btnText_opacity := btnText_opacity p;
     loader_display := loader_display p; analyzeBtn_disabled := analyzeBtn_disabled p;
     resultsArea_hidden := hidden |}.

(** A statement on the charts and the diet plan, run on the page. *)
Definition on_world {A} (c : M A) : P A :=
  fun p => let '(r, w) := c (world p) in (r, set_world w p).

(** *** Static data: [HEALTH_DATA.bmiCategories] *)

Record Badge : Type := {
  label : string;
  color : string
}.

Definition bmiCategories : list (string * Badge) :=
  [ ("underweight", {| label := "Underweight"; color := "#60a5fa" |});
    ("normal", {| label := "Healthy"; color := "#34d399" |});
    ("overweight", {| label := "Overweight"; color := "#fbbf24" |});
    ("obese", {| label := "Obese"; color := "#f87171" |}) ].

Fixpoint own_badge (o : list (string * Badge)) (key : string) : option Badge :=
  match o with
  | [] => None
  | (k, v) :: o' => if strict_eq k key then Some v else own_badge o' key
  end.

(** What the read [HEALTH_DATA.bmiCategories[key]] gives: an entry, a member
    inherited from [Object.prototype] (which has neither [label] nor
    [color]), or [undefined]. *)
Inductive category_entry : Type :=
| Entry (badge : Badge)
| InheritedMember
| NoEntry.

Definition get_badge (key : string) : category_entry :=
  match own_badge bmiCategories key with
  | Some badge => Entry badge
  | None =>
      if existsb (strict_eq key) Object_prototype then InheritedMember else NoEntry
  end.

(** *** Theme *)

Definition initTheme : P unit :=
  fun p =>
    let savedTheme :=
      match getItem (localStorage p) "theme" with
      | Some saved => if strict_eq saved "" then "light" else saved
      | None => "light"
      end in
    update (set_data_theme savedTheme) p.

Definition toggleTheme : P unit :=
  fun p =>
    let current := data_theme p in
    let next :=
      match current with
      | Some c => if strict_eq c "light" then "dark" else "light"
      | None => "light"
      end in
    (update (set_data_theme next) >>
     update (fun p => set_localStorage (setItem (localStorage p) "theme" next) p)) p.

(** *** Persistence: [saveToLocal]

    [date] is the text [new Date().toLocaleDateString()] gives when the
    report is built. *)
Definition report (inputs : FormData) (results : HealthResult) (date : string) : json :=
  JObject
    [ ("inputs",
       JObject [ ("age", JNumber (age inputs));
                 ("gender", JString (gender inputs));
                 ("height", JNumber (height inputs));
                 ("weight", JNumber (weight inputs));
                 ("activity", JString (activity inputs));
                 ("goal", JString (goal inputs));
                 ("preference", JString (preference inputs)) ]);
      ("results",
       JObject [ ("bmi", JString (bmi results));
                 ("calories", JNumber (calories results));
                 ("category", JString (category results)) ]);
      ("date", JString date) ].

Definition saveToLocal (inputs : FormData) (results : HealthResult) (date : string) : P unit :=
  let report := report inputs results date in
  update (fun p =>
    set_localStorage (setItem (localStorage p) "lastHealthReport" (stringify report)) p).

Section Locale.

(** [Number.prototype.toLocaleString] depends on the locale of the browser;
    it is a parameter of what follows. *)
Variable toLocaleString : number -> string.

(** *** Result display: [updateUI], on a result of [calculateHealthMetrics]
    and the form data it was computed from *)
Definition updateUI (results : HealthResult) (inputs : FormData) : P unit :=
  let cat := get_badge (category results) in
  update (set_bmiValue (bmi results)) >>
  update (set_calorieValue (toLocaleString (calories results))) >>
  match cat with
  | NoEntry => throw TypeError
  | Entry badge =>
      update (set_bmiStatus (label badge)) >>
      update (set_bmiStatus_style (Some (color badge ++ "20")) (Some (color badge)))
  | InheritedMember =>
      update (set_bmiStatus "undefined") >>
      update (set_bmiStatus_style None None)
  end >>
  on_world (renderCharts (bmi results) (calories results) (weight inputs) (goal inputs)) >>
  on_world (renderDietPlan (preference inputs) (goal inputs)).

(** *** The form: [handleFormSubmit]

    The function runs to its end at once: it marks the button busy, reads
    the form, computes the result and leaves to a timer, 800 ms later, the
    callback [handleFormSubmit_timeout] with the result and the form data it
    captured. *)
Definition read_form (f : Form) : FormData :=
  {| age := parseInt (age_value f);
     gender := gender_value f;
     height := parseInt (height_value f);
     weight := parseInt (weight_value f);
     activity := activity_value f;
     goal := goal_value f;
     preference := preference_value f |}.

Definition handleFormSubmit : P (HealthResult * FormData) :=
  (* Visual Feedback *)
  update (set_button "0" "block" true) >>
  fun p =>
    let formData := read_form (form p) in
    match calculateHealthMetrics formData with
    | Normal results => (Normal (results, formData), p)
    | Throw e => (Throw e, p)
    end.

Definition handleFormSubmit_timeout (results : HealthResult) (formData : FormData)
    (date : string) : P unit :=
  updateUI results formData >>
  saveToLocal formData results date >>
  update (set_button "1" "none" false) >>
  update (set_resultsArea_hidden false).

(** A submission followed by its timer callback, nothing else running in
    between. *)
Definition submit (date : string) : P unit :=
  bindP handleFormSubmit
        (fun captured => handleFormSubmit_timeout (fst captured) (snd captured) date).

End Locale.

(** *** Vocabulary of the properties *)

Definition is_decimal_digit (c : ascii) : bool :=
  let n := nat_of_ascii c in ((48 <=? n) && (n <=? 57))%nat.

(** A nonempty run of decimal digits. *)
Fixpoint all_digits (s : string) : bool :=
  match s with
  | EmptyString => false
  | String c EmptyString => is_decimal_digit c
  | String c r => is_decimal_digit c && all_digits r
  end.




(** The charts a page holds, as a list. *)
Definition held (chart : option Chart) : list Chart :=
  match chart with
  | Some c => [c]
  | None => []
  end.

Definition recognized (pref : string) : Prop := In pref ["non-veg"; "veg"; "vegan"].

Definition set_form (f : Form) (p : Page) : Page :=
  {| world := world p; data_theme := data_theme p; localStorage := localStorage p;
     form := f; bmiValue := bmiValue p; calorieValue := calorieValue p;
     bmiStatus := bmiStatus p; bmiStatus_background := bmiStatus_background p;
     bmiStatus_color := bmiStatus_color p; btnText_opacity := btnText_opacity p;
     loader_display := loader_display p; analyzeBtn_disabled := analyzeBtn_disabled p;
     resultsArea_hidden := resultsArea_hidden p |}.

(** The form filled in for a man of 30, 180 cm and 80 kg, activity 1.55,
    who wants to keep his weight, with a given preference. *)
Definition filled (preference : string) : Form :=
  {| age_value := "30"; gender_value := "male"; height_value := "180";
     weight_value := "80"; activity_value := "1.55"; goal_value := "maintain";
     preference_value := preference |}.

(** A page as it is before the script has run: nothing rendered, no theme,
    empty storage and an empty form, the button idle and the results hidden. *)
Definition blank : Page :=
  {| world := {| bmiChart := None; weightChart := None; dietSummary := "";
                 destroyed := [] |};
     data_theme := None; localStorage := [];
     form := {| age_value := ""; gender_value := ""; height_value := "";
                weight_value := ""; activity_value := ""; goal_value := "";
                preference_value := "" |};
     bmiValue := ""; calorieValue := ""; bmiStatus := "";
     bmiStatus_background := ""; bmiStatus_color := "";
     btnText_opacity := "1"; loader_display := "none";
     analyzeBtn_disabled := false; resultsArea_hidden := true |}.

End UI.

Import JS HappyMe.

(** ** Facts about Numbers *)
Section Numbers.
Local Open Scope Z_scope.

Lemma digits2_pos_bounds (m : positive) :
  2 ^ (Zpos (digits2_pos m) - 1) <= Zpos m < 2 ^ Zpos (digits2_pos m).
Proof.
  induction m as [m IH | m IH |]; cbn [digits2_pos].
  - rewrite Pos2Z.inj_succ.
    replace (Z.succ (Zpos (digits2_pos m)) - 1) with (Z.succ (Zpos (digits2_pos m) - 1)) by lia.
    rewrite !Z.pow_succ_r by lia. lia.
  - rewrite Pos2Z.inj_succ.
    replace (Z.succ (Zpos (digits2_pos m)) - 1) with (Z.succ (Zpos (digits2_pos m) - 1)) by lia.
    rewrite !Z.pow_succ_r by lia. lia.
  - cbn. lia.
Qed.

(** What a canonical binary64 mantissa and exponent satisfy: at most 53
    bits, the exponent in range, and a full mantissa unless subnormal. *)
Lemma bounded_inv (m : positive) (e : Z) :
  bounded prec emax m e = true ->
  Zpos m < 2 ^ 53 /\ -1074 <= e <= 971 /\ (e = -1074 \/ 2 ^ 52 <= Zpos m).
Proof.
  unfold bounded, canonical_mantissa, fexp, SpecFloat.emin, prec, emax.
  intros H. apply andb_true_iff in H. destruct H as [H1 H2].
  apply Z.eqb_eq in H1. apply Z.leb_le in H2.
  pose proof (digits2_pos_bounds m) as [Hlo Hhi].
  assert (Hd : Zpos (digits2_pos m) <= 53) by lia.
  split.
  - eapply Z.lt_le_trans; [exact Hhi|]. apply Z.pow_le_mono_r; lia.
  - split; [lia|].
    destruct (Z.eq_dec e (-1074)) as [->|Hne]; [now left|right].
    assert (Zpos (digits2_pos m) = 53) as Hd53 by lia.
    rewrite Hd53 in Hlo. exact Hlo.
Qed.

Lemma magnitude_pos m e : (0 < magnitude m e)%Q.
Proof.
  unfold magnitude, Qlt; cbn [Qnum Qden].
  assert (0 < 2 ^ Z.max 0 e) by (apply Z.pow_pos_nonneg; lia).
  lia.
Qed.

(** Canonical encodings are ordered by exponent first, then by mantissa. *)
Lemma magnitude_compare m1 e1 m2 e2 :
  bounded prec emax m1 e1 = true ->
  bounded prec emax m2 e2 = true ->
  (magnitude m1 e1 ?= magnitude m2 e2)%Q =
  match e1 ?= e2 with
  | Lt => Lt
  | Gt => Gt
  | Eq => Pos.compare_cont Eq m1 m2
  end.
Proof.
  intros B1 B2.
  apply bounded_inv in B1. apply bounded_inv in B2.
  destruct B1 as (U1 & R1 & L1). destruct B2 as (U2 & R2 & L2).
  unfold Qcompare, magnitude; cbn [Qnum Qden].
  assert (P1 : 0 < 2 ^ Z.max 0 (- e1)) by (apply Z.pow_pos_nonneg; lia).
  assert (P2 : 0 < 2 ^ Z.max 0 (- e2)) by (apply Z.pow_pos_nonneg; lia).
  rewrite !Z2Pos.id by assumption.
  rewrite <- !Z.mul_assoc, <- !Z.pow_add_r by lia.
  change (2 ^ 53) with (2 * 2 ^ 52) in U1, U2.
  set (T := 2 ^ 52) in *.
  assert (HT : 0 < T) by (subst T; reflexivity).
  destruct (Z.compare_spec e1 e2) as [-> | Hlt | Hgt].
  - replace (Z.max 0 e2 + Z.max 0 (- e2)) with (Z.max 0 (- e2) + Z.max 0 e2) by lia.
    set (P := 2 ^ _).
    assert (0 < P) by (apply Z.pow_pos_nonneg; lia).
    rewrite <- Zmult_compare_compat_r by lia. reflexivity.
  - apply Z.compare_lt_iff.
    replace (Z.max 0 e2 + Z.max 0 (- e1))
      with ((Z.max 0 e1 + Z.max 0 (- e2)) + (e2 - e1)) by lia.
    rewrite (Z.pow_add_r _ _ (e2 - e1)) by lia.
    set (P := 2 ^ (Z.max 0 e1 + _)).
    assert (0 < P) by (apply Z.pow_pos_nonneg; lia).
    assert (2 ^ 1 <= 2 ^ (e2 - e1)) by (apply Z.pow_le_mono_r; lia).
    change (2 ^ 1) with 2 in *.
    destruct L2 as [L2 | L2]; [lia|].
    set (K := 2 ^ (e2 - e1)) in *.
    apply Z.lt_le_trans with (2 * T * P); [nia|].
    apply Z.le_trans with (T * (P * K)); [nia|].
    apply Z.mul_le_mono_nonneg_r; nia.
  - apply Z.compare_gt_iff.
    replace (Z.max 0 e1 + Z.max 0 (- e2))
      with ((Z.max 0 e2 + Z.max 0 (- e1)) + (e1 - e2)) by lia.
    rewrite (Z.pow_add_r _ _ (e1 - e2)) by lia.
    set (P := 2 ^ (Z.max 0 e2 + _)).
    assert (0 < P) by (apply Z.pow_pos_nonneg; lia).
    assert (2 ^ 1 <= 2 ^ (e1 - e2)) by (apply Z.pow_le_mono_r; lia).
    change (2 ^ 1) with 2 in *.
    destruct L1 as [L1 | L1]; [lia|].
    set (K := 2 ^ (e1 - e2)) in *.
    apply Z.lt_le_trans with (2 * T * P); [nia|].
    apply Z.le_trans with (T * (P * K)); [nia|].
    apply Z.mul_le_mono_nonneg_r; nia.
Qed.

Lemma Qcompare_opp (a b : Q) : (Qopp a ?= Qopp b)%Q = (b ?= a)%Q.
Proof.
  unfold Qcompare, Qopp; cbn [Qnum Qden].
  rewrite !Z.mul_opp_l. apply Z.compare_opp.
Qed.

(** The comparison of two finite Numbers is the comparison of their values. *)
Lemma SFcompare_to_Q (x y : number) :
  is_number x = true -> is_number y = true ->
  is_finite x = true -> is_finite y = true ->
  SFcompare x y = Some (to_Q x ?= to_Q y)%Q.
Proof.
  assert (Hneg : forall m e q, (0 <= q)%Q -> (Qopp (magnitude m e) ?= q)%Q = Lt).
  { intros m e q Hq. apply Qlt_alt. apply Qlt_le_trans with 0%Q; [|exact Hq].
    apply (Qopp_lt_compat 0 (magnitude m e)), magnitude_pos. }
  assert (Hpos : forall m e q, (0 <= q)%Q -> (q ?= Qopp (magnitude m e))%Q = Gt).
  { intros m e q Hq. apply Qgt_alt. apply Qlt_le_trans with 0%Q; [|exact Hq].
    apply (Qopp_lt_compat 0 (magnitude m e)), magnitude_pos. }
  assert (H0 : (0 <= 0)%Q) by apply Qle_refl.
  assert (Hm : forall m e, (0 <= magnitude m e)%Q)
    by (intros; apply Qlt_le_weak, magnitude_pos).
  assert (Hlt : forall m e, (0 ?= magnitude m e)%Q = Lt)
    by (intros; apply Qlt_alt, magnitude_pos).
  assert (Hgt : forall m e, (magnitude m e ?= 0)%Q = Gt)
    by (intros; apply Qgt_alt, magnitude_pos).
  destruct x as [sx | sx | | sx mx ex], y as [sy | sy | | sy my ey];
    cbn [is_finite is_number valid_binary]; try discriminate; intros Vx Vy _ _.
  - reflexivity.
  - destruct sy; cbn [SFcompare to_Q].
    + now rewrite Hpos.
    + now rewrite Hlt.
  - destruct sx; cbn [SFcompare to_Q].
    + now rewrite Hneg.
    + now rewrite Hgt.
  - destruct sx, sy; cbn [SFcompare to_Q].
    + rewrite Qcompare_opp, (magnitude_compare my ey mx ex) by assumption.
      rewrite (Z.compare_antisym ey ex).
      destruct (ey ?= ex)%Z; cbn [CompOpp]; try reflexivity.
      now rewrite (Pos.compare_cont_antisym mx my Eq).
    + now rewrite Hneg.
    + now rewrite Hpos.
    + now rewrite magnitude_compare by assumption.
Qed.

(** The script's [<] on finite Numbers is [<] on their values. *)
Lemma lt_to_Q (x y : number) :
  is_number x = true -> is_number y = true ->
  is_finite x = true -> is_finite y = true ->
  lt x y = true <-> (to_Q x < to_Q y)%Q.
Proof.
  intros Vx Vy Fx Fy. unfold lt, SFltb.
  rewrite (SFcompare_to_Q x y) by assumption.
  rewrite Qlt_alt. destruct (to_Q x ?= to_Q y)%Q; split; congruence.
Qed.

Lemma lt_false_to_Q (x y : number) :
  is_number x = true -> is_number y = true ->
  is_finite x = true -> is_finite y = true ->
  lt x y = false <-> (to_Q y <= to_Q x)%Q.
Proof.
  intros Vx Vy Fx Fy.
  pose proof (lt_to_Q x y Vx Vy Fx Fy) as H.
  split.
  - intros Hf. apply Qnot_lt_le. intros Hlt. apply H in Hlt. congruence.
  - intros Hle. destruct (lt x y) eqn:E; [|reflexivity].
    exfalso. apply (Qle_not_lt _ _ Hle). now apply H.
Qed.

End Numbers.

(** Closed facts are settled by evaluating the model. *)
Ltac evaluate := vm_compute; reflexivity.

(** ** The metrics engine *)
Section Engine.

(** [toFixed(1)] completes normally on every Number. *)
Lemma toFixed_1 (x : number) : toFixed x 1 = Normal (fixed x 1).
Proof.
  unfold fixed, toFixed.
  change ((1 <? 0) || (100 <? 1))%Z with false. cbv beta iota zeta.
  destruct (negb (is_finite x)); [reflexivity|].
  destruct (Qle_bool (Qpow10 21) (Qabs (to_Q x))); reflexivity.
Qed.

Lemma strict_eq_true (a b : string) : strict_eq a b = true <-> a = b.
Proof. apply String.eqb_eq. Qed.

Lemma strict_eq_false (a b : string) : strict_eq a b = false <-> a <> b.
Proof. apply String.eqb_neq. Qed.

(** The two goal tests of the script, one after the other, make the
    three-way adjustment. *)
Lemma adjustment_eq (calories : number) (goal : string) :
  (let calories := if strict_eq goal "lose" then sub calories (lit 500) else calories in
   if strict_eq goal "gain" then add calories (lit 500) else calories)
  = Spec.adjusted calories goal.
Proof.
  unfold Spec.adjusted. cbv zeta.
  destruct (strict_eq goal "lose") eqn:L; [|reflexivity].
  apply strict_eq_true in L. subst goal. reflexivity.
Qed.

(** What the engine returns, on every input. *)
Lemma calculateHealthMetrics_eq (data : FormData) :
  calculateHealthMetrics data =
  Normal {| bmi := fixed (Spec.BMI_of data) 1;
            calories := Math_round (Spec.adjusted (Spec.TDEE_of data) (goal data));
            category := getBMICategory (Spec.BMI_of data) |}.
Proof.
  destruct data as [a g h w act gl p].
  unfold calculateHealthMetrics, Spec.BMI_of, Spec.TDEE_of, Spec.TDEE, Spec.BMR, Spec.BMI,
    Spec.base.
  cbv beta iota zeta delta [age gender height weight activity goal].
  rewrite toFixed_1. cbn [bind].
  rewrite <- adjustment_eq. cbv zeta.
  destruct (strict_eq g "male"); reflexivity.
Qed.

Lemma threshold_lt (x c : number) (q : Q) :
  Spec.threshold c q -> is_number x = true -> is_finite x = true ->
  (lt x c = true /\ (to_Q x < q)%Q) \/ (lt x c = false /\ (q <= to_Q x)%Q).
Proof.
  intros (Vc & Fc & Ec) Vx Fx.
  destruct (lt x c) eqn:E.
  - left. split; [reflexivity|]. rewrite <- Ec. now apply lt_to_Q.
  - right. split; [reflexivity|]. rewrite <- Ec. now apply lt_false_to_Q.
Qed.

Lemma threshold_18_5 : Spec.threshold (lit 18.5) 18.5.
Proof. split; [|split]; reflexivity. Qed.

Lemma threshold_25 : Spec.threshold (lit 25) 25.
Proof. split; [|split]; reflexivity. Qed.

Lemma threshold_30 : Spec.threshold (lit 30) 30.
Proof. split; [|split]; reflexivity. Qed.

End Engine.

(** C1, as amended.  The engine performs no validation: on every input
    whose height is not strictly positive, or whose weight is not strictly
    positive, or whose age is not a positive integer below 150,
    [calculateHealthMetrics] raises nothing and returns the result its
    formulas give on that input. *)
Theorem calculateHealthMetrics_no_validation (data : FormData) :
  Spec.positive_real (height data) = false \/
  Spec.positive_real (weight data) = false \/
  Spec.valid_age (age data) = false ->
  exists r, calculateHealthMetrics data = Normal r /\
    bmi r = fixed (Spec.BMI_of data) 1 /\
    calories r = Math_round (Spec.adjusted (Spec.TDEE_of data) (goal data)) /\
    category r = getBMICategory (Spec.BMI_of data).
Proof.
  intros _. eexists. split; [apply calculateHealthMetrics_eq|].
  split; [|split]; reflexivity.
Qed.

Lemma calculateHealthMetrics_no_validation_witness :
  exists r, calculateHealthMetrics (Spec.measured (lit 0) (lit 180) (lit 80)) = Normal r /\
    bmi r = "24.7" /\ calories r = of_Z 2992 /\ category r = "normal".
Proof.
  destruct (calculateHealthMetrics_no_validation (Spec.measured (lit 0) (lit 180) (lit 80)))
    as (r & Hr & Hb & Hc & Hg).
  - right. right. reflexivity.
  - exists r. split; [exact Hr|].
    rewrite Hb, Hc, Hg. split; [|split]; evaluate.
Defined.

(** C1, as stated, fails: height 0, weight -5 and age 0 are each accepted
    and each yields a result; nothing is thrown. *)
Lemma invalid_input_not_rejected :
  Spec.positive_real (lit 0) = false /\
  calculateHealthMetrics (Spec.measured (lit 30) (lit 0) (lit 70)) =
    Normal {| bmi := "Infinity"; calories := of_Z 860; category := "obese" |} /\
  Spec.positive_real (lit (-5)) = false /\
  calculateHealthMetrics (Spec.measured (lit 30) (lit 180) (lit (-5))) =
    Normal {| bmi := "-1.5"; calories := of_Z 1442; category := "underweight" |} /\
  Spec.valid_age (lit 0) = false /\
  calculateHealthMetrics (Spec.measured (lit 0) (lit 180) (lit 80)) =
    Normal {| bmi := "24.7"; calories := of_Z 2992; category := "normal" |} /\
  (forall e, calculateHealthMetrics (Spec.measured (lit 30) (lit 0) (lit 70)) <> Throw e).
Proof.
  repeat (split; [evaluate|]).
  intros e. vm_compute. discriminate.
Qed.

(** C2.  On every input (so on every valid one) the engine computes
    BMI = weight / (height/100)^2, BMR = 10*weight + 6.25*height - 5*age, plus
    5 for the gender "male" and minus 161 otherwise, and TDEE = BMR * activity
    factor; the result carries the BMI to one decimal, the rounded adjusted
    TDEE and the category of the BMI.  For age 30, male, 180 cm, 80 kg,
    activity 1.55 and goal "maintain": BMR = 1780, TDEE = 2759 and the daily
    calorie target is 2759. *)
Theorem calculateHealthMetrics_formulas (data : FormData) :
  calculateHealthMetrics data =
    Normal {| bmi := fixed (Spec.BMI (weight data) (height data)) 1;
              calories :=
                Math_round
                  (Spec.adjusted
                     (Spec.TDEE (Spec.BMR (gender data) (weight data) (height data) (age data))
                                (parseFloat_string (activity data)))
                     (goal data));
              category := getBMICategory (Spec.BMI (weight data) (height data)) |}
  /\ Spec.BMR "male" (lit 80) (lit 180) (lit 30) = of_Z 1780
  /\ Spec.TDEE (of_Z 1780) (parseFloat_string "1.55") = of_Z 2759
  /\ calculateHealthMetrics (Spec.worked_input "maintain") =
       Normal {| bmi := "24.7"; calories := of_Z 2759; category := "normal" |}.
Proof.
  split; [apply calculateHealthMetrics_eq|].
  split; [|split]; evaluate.
Qed.

(** C3.  On every finite Number the category is decided by the exact value
    of the BMI against the half-open ranges: below 18.5 underweight, from
    18.5 to below 25 normal, from 25 to below 30 overweight, 30 and above
    obese; each category is reached from its own range only.  At the
    boundaries: 18.5 and 24.999 are normal, 25.0 and 29.999 overweight, 30.0
    obese. *)
Theorem getBMICategory_ranges (bmi : number) :
  is_number bmi = true -> is_finite bmi = true ->
  (getBMICategory bmi = "underweight" <-> to_Q bmi < 18.5)%Q /\
  (getBMICategory bmi = "normal" <-> 18.5 <= to_Q bmi /\ to_Q bmi < 25)%Q /\
  (getBMICategory bmi = "overweight" <-> 25 <= to_Q bmi /\ to_Q bmi < 30)%Q /\
  (getBMICategory bmi = "obese" <-> 30 <= to_Q bmi)%Q /\
  getBMICategory (lit 18.5) = "normal" /\
  getBMICategory (lit 24.999) = "normal" /\
  getBMICategory (lit 25.0) = "overweight" /\
  getBMICategory (lit 29.999) = "overweight" /\
  getBMICategory (lit 30.0) = "obese".
Proof.
  intros V F.
  assert (Hex : getBMICategory (lit 18.5) = "normal" /\
                getBMICategory (lit 24.999) = "normal" /\
                getBMICategory (lit 25.0) = "overweight" /\
                getBMICategory (lit 29.999) = "overweight" /\
                getBMICategory (lit 30.0) = "obese")
    by (vm_compute; repeat split).
  unfold getBMICategory at 1 2 3 4.
  destruct (threshold_lt bmi _ _ threshold_18_5 V F) as [[-> H1] | [-> H1]];
  [| destruct (threshold_lt bmi _ _ threshold_25 V F) as [[-> H2] | [-> H2]];
     [| destruct (threshold_lt bmi _ _ threshold_30 V F) as [[-> H3] | [-> H3]]]];
  (repeat split; try exact (proj1 Hex); try apply Hex; try discriminate; try lra;
    intros; exfalso; lra).
Qed.

Lemma getBMICategory_ranges_witness :
  getBMICategory (Spec.BMI (lit 70) (lit 170)) = "normal" /\
  fixed (Spec.BMI (lit 70) (lit 170)) 1 = "24.2".
Proof.
  split; [|evaluate].
  destruct (getBMICategory_ranges (Spec.BMI (lit 70) (lit 170)) eq_refl eq_refl)
    as (_ & Hnormal & _).
  apply Hnormal. split; vm_compute; [discriminate | reflexivity].
Defined.

(** C4, as amended.  The goal adjustment is applied to the TDEE before the
    single rounding: the daily calorie target is the rounding of TDEE - 500
    for the goal "lose", of TDEE + 500 for "gain", and of the TDEE itself for
    "maintain"; with TDEE 2759 the target is 2259 for lose and 3259 for
    gain. *)
Theorem calorie_target_rounds_after_adjusting (data : FormData) :
  exists r, calculateHealthMetrics data = Normal r /\
    (goal data = "lose" ->
       calories r = Math_round (sub (Spec.TDEE_of data) (lit 500))) /\
    (goal data = "gain" ->
       calories r = Math_round (add (Spec.TDEE_of data) (lit 500))) /\
    (goal data = "maintain" ->
       calories r = Math_round (Spec.TDEE_of data)) /\
    Spec.TDEE_of (Spec.worked_input "lose") = of_Z 2759 /\
    calculateHealthMetrics (Spec.worked_input "lose") =
      Normal {| bmi := "24.7"; calories := of_Z 2259; category := "normal" |} /\
    calculateHealthMetrics (Spec.worked_input "gain") =
      Normal {| bmi := "24.7"; calories := of_Z 3259; category := "normal" |}.
Proof.
  eexists. split; [apply calculateHealthMetrics_eq|].
  cbn [calories]. unfold Spec.adjusted.
  split; [intros ->; reflexivity|].
  split; [intros ->; reflexivity|].
  split; [intros ->; reflexivity|].
  split; [|split]; evaluate.
Qed.

Lemma calorie_target_rounds_after_adjusting_witness :
  exists r, calculateHealthMetrics Spec.gaining_input = Normal r /\
            calories r = Math_round (add (Spec.TDEE_of Spec.gaining_input) (lit 500)).
Proof.
  destruct (calorie_target_rounds_after_adjusting Spec.gaining_input)
    as (r & Hr & _ & Hgain & _).
  exists r. split; [exact Hr | apply Hgain; reflexivity].
Defined.

(** C4, as stated, fails.  For the valid input [Spec.gaining_input] the BMR
    is 1024 and the TDEE is 1600.5 - 2^-42, printed 1600.4999999999998:
    rounded first it gives 1600 + 500 = 2100.  The script adds 500 first; the
    exact sum lies halfway between two binary64 values and the addition
    returns 2100.5, which [Math.round] takes to 2101.  For
    [Spec.losing_input] the BMR is 64 and the TDEE is 200.5 - 2^-45: rounded
    first it gives 200 - 500 = -300; the script's difference is -299.5 and
    its target -299. *)
Lemma calorie_target_not_rounded_first :
  (Spec.valid_input Spec.gaining_input = true /\
   goal Spec.gaining_input = "gain" /\
   Number_toString (Spec.TDEE_of Spec.gaining_input) = "1600.4999999999998" /\
   add (Spec.TDEE_of Spec.gaining_input) (lit 500) = lit 2100.5 /\
   exists r, calculateHealthMetrics Spec.gaining_input = Normal r /\
     calories r = of_Z 2101 /\
     add (Math_round (Spec.TDEE_of Spec.gaining_input)) (lit 500) = of_Z 2100 /\
     calories r <> add (Math_round (Spec.TDEE_of Spec.gaining_input)) (lit 500)) /\
  (Spec.valid_input Spec.losing_input = true /\
   goal Spec.losing_input = "lose" /\
   Number_toString (Spec.TDEE_of Spec.losing_input) = "200.49999999999997" /\
   sub (Spec.TDEE_of Spec.losing_input) (lit 500) = lit (-299.5) /\
   exists r, calculateHealthMetrics Spec.losing_input = Normal r /\
     calories r = of_Z (-299) /\
     sub (Math_round (Spec.TDEE_of Spec.losing_input)) (lit 500) = of_Z (-300) /\
     calories r <> sub (Math_round (Spec.TDEE_of Spec.losing_input)) (lit 500)).
Proof.
  split; (split; [evaluate|]); (split; [reflexivity|]);
    (split; [evaluate|]); (split; [evaluate|]);
    eexists; (split; [apply calculateHealthMetrics_eq|]); cbn [calories];
    (split; [evaluate|]); (split; [evaluate|]);
    vm_compute; discriminate.
Qed.

(** C9.  The engine rejects no gender and no goal.  A gender other than the
    exact string "male" gets the offset -161; a goal other than "lose" and
    "gain" leaves the calorie target unadjusted (the rounded TDEE) and gives
    the projection the delta 0. *)
Theorem unlisted_gender_and_goal (data : FormData) :
  exists r, calculateHealthMetrics data = Normal r /\
    (gender data <> "male" ->
       calories r =
         Math_round
           (Spec.adjusted
              (mul (sub (Spec.base (weight data) (height data) (age data)) (lit 161))
                   (parseFloat_string (activity data)))
              (goal data))) /\
    (goal data <> "lose" -> goal data <> "gain" ->
       calories r = Math_round (Spec.TDEE_of data) /\
       change (goal data) = lit 0).
Proof.
  eexists. split; [apply calculateHealthMetrics_eq|].
  cbn [calories]. split.
  - intros Hg. apply strict_eq_false in Hg.
    unfold Spec.TDEE_of, Spec.TDEE, Spec.BMR. now rewrite Hg.
  - intros Hl Hg. apply strict_eq_false in Hl, Hg.
    unfold Spec.adjusted, change. now rewrite Hl, Hg.
Qed.

Lemma unlisted_gender_and_goal_witness :
  exists r,
    calculateHealthMetrics
      {| age := lit 30; gender := "other"; height := lit 180; weight := lit 80;
         activity := "1.55"; goal := "bulk"; preference := "veg" |} = Normal r /\
    calories r = of_Z 2502 /\ change "bulk" = lit 0.
Proof.
  destruct (unlisted_gender_and_goal
              {| age := lit 30; gender := "other"; height := lit 180; weight := lit 80;
                 activity := "1.55"; goal := "bulk"; preference := "veg" |})
    as (r & Hr & Hgender & Hgoal).
  exists r. split; [exact Hr|].
  cbn [goal gender] in *.
  destruct Hgoal as [Hc Hd]; [discriminate | discriminate |].
  split; [|exact Hd].
  rewrite Hgender by discriminate. evaluate.
Defined.

(** C10, as amended.  [calculateHealthMetrics] returns a result on every
    input and never throws.  With height 0 the BMI is Infinity and the
    category "obese" when the weight is positive; a negative weight there
    gives the BMI -Infinity and the category "underweight", a zero weight
    the BMI NaN and the category "obese".  A negative or zero weight and a
    zero or negative age give a result as well. *)
Theorem calculateHealthMetrics_never_throws (data : FormData) :
  exists r, calculateHealthMetrics data = Normal r /\
    (SFeqb (height data) (lit 0) = true -> lt (lit 0) (weight data) = true ->
       bmi r = "Infinity" /\ category r = "obese") /\
    (SFeqb (height data) (lit 0) = true -> lt (weight data) (lit 0) = true ->
       bmi r = "-Infinity" /\ category r = "underweight") /\
    (SFeqb (height data) (lit 0) = true -> SFeqb (weight data) (lit 0) = true ->
       bmi r = "NaN" /\ category r = "obese") /\
    calculateHealthMetrics (Spec.measured (lit 30) (lit 180) (lit (-5))) =
      Normal {| bmi := "-1.5"; calories := of_Z 1442; category := "underweight" |} /\
    calculateHealthMetrics (Spec.measured (lit 30) (lit 180) (lit 0)) =
      Normal {| bmi := "0.0"; calories := of_Z 1519; category := "underweight" |} /\
    calculateHealthMetrics (Spec.measured (lit 0) (lit 180) (lit 80)) =
      Normal {| bmi := "24.7"; calories := of_Z 2992; category := "normal" |} /\
    calculateHealthMetrics (Spec.measured (lit (-40)) (lit 180) (lit 80)) =
      Normal {| bmi := "24.7"; calories := of_Z 3302; category := "normal" |} /\
    calculateHealthMetrics (Spec.measured (lit 30) (lit 0) (lit 0)) =
      Normal {| bmi := "NaN"; calories := of_Z (-225); category := "obese" |} /\
    calculateHealthMetrics (Spec.measured (lit 30) (lit 0) (lit (-5))) =
      Normal {| bmi := "-Infinity"; calories := of_Z (-302); category := "underweight" |}.
Proof.
  eexists. split; [apply calculateHealthMetrics_eq|].
  cbn [bmi category]. unfold Spec.BMI_of, Spec.BMI.
  split; [|split; [|split]].
  - intros Hz Hw.
    destruct (height data) as [sh | [|] | | [|] mh eh];
      try (vm_compute in Hz; discriminate Hz).
    destruct (weight data) as [sw | [|] | | [|] m e];
      try (vm_compute in Hw; discriminate Hw);
      destruct sh; split; reflexivity.
  - intros Hz Hw.
    destruct (height data) as [sh | [|] | | [|] mh eh];
      try (vm_compute in Hz; discriminate Hz).
    destruct (weight data) as [sw | [|] | | [|] m e];
      try (vm_compute in Hw; discriminate Hw);
      destruct sh; split; reflexivity.
  - intros Hz Hw.
    destruct (height data) as [sh | [|] | | [|] mh eh];
      try (vm_compute in Hz; discriminate Hz).
    destruct (weight data) as [sw | [|] | | [|] m e];
      try (vm_compute in Hw; discriminate Hw);
      destruct sh, sw; split; reflexivity.
  - repeat (split; [evaluate|]). evaluate.
Qed.

Lemma calculateHealthMetrics_never_throws_witness :
  exists r, calculateHealthMetrics (Spec.measured (lit 30) (lit 0) (lit 70)) = Normal r /\
            bmi r = "Infinity" /\ category r = "obese".
Proof.
  destruct (calculateHealthMetrics_never_throws (Spec.measured (lit 30) (lit 0) (lit 70)))
    as (r & Hr & Hzero & _).
  exists r. split; [exact Hr|]. apply Hzero; reflexivity.
Defined.

(** C10, as stated, fails: with height 0 the BMI is not Infinity, nor the
    category "obese", when the weight is negative, and the BMI is NaN when
    the weight is zero. *)
Lemma height_zero_is_not_always_Infinity :
  exists negative zero,
    SFeqb (height (Spec.measured (lit 30) (lit 0) (lit (-5)))) (lit 0) = true /\
    calculateHealthMetrics (Spec.measured (lit 30) (lit 0) (lit (-5))) = Normal negative /\
    bmi negative <> "Infinity" /\ category negative <> "obese" /\
    SFeqb (height (Spec.measured (lit 30) (lit 0) (lit 0))) (lit 0) = true /\
    calculateHealthMetrics (Spec.measured (lit 30) (lit 0) (lit 0)) = Normal zero /\
    bmi zero <> "Infinity".
Proof.
  do 2 eexists. split; [evaluate|]. split; [evaluate|].
  split; [discriminate|]. split; [discriminate|].
  split; [evaluate|]. split; [evaluate|]. discriminate.
Qed.

(** ** The charts and the diet plan *)
Section Rendering.

Lemma append_assoc (a b c : string) : (a ++ b) ++ c = a ++ (b ++ c).
Proof. induction a as [|ch a IH]; cbn; [reflexivity | now rewrite IH]. Qed.

(** The roadmap loop never throws: it appends the fixed-point text of each
    projected weight. *)
Lemma roadmap_eq (steps : nat) (delta start : number) (weightData : list string) :
  roadmap steps delta start weightData =
  Normal (weightData ++ map (fun x => fixed x 1) (Spec.projection steps delta start))%list.
Proof.
  revert start weightData.
  induction steps as [|steps IH]; intros start weightData; cbn [roadmap Spec.projection map].
  - now rewrite app_nil_r.
  - rewrite toFixed_1. cbn [bind]. rewrite IH, <- app_assoc. reflexivity.
Qed.

(** The state [renderCharts] leaves behind. *)
Lemma renderCharts_eq (bmi : string) (calories weight : number) (goal : string) (w : World) :
  exists old,
    renderCharts bmi calories weight goal w =
    (Normal tt,
     {| bmiChart := Some {| type := "doughnut"; labels := ["Your BMI"; "Optimal"];
                            data := [DString bmi; DNumber (lit 25)] |};
        weightChart :=
          Some {| type := "line";
                  labels := ["Week 1"; "Week 2"; "Week 3"; "Week 4"];
                  data := map DString
                            (map (fun x => fixed x 1)
                                 (Spec.projection 4 (change goal) (parseFloat_number weight))) |};
        dietSummary := dietSummary w;
        destroyed := old |}).
Proof.
  unfold renderCharts, bindM, destroy, modify, lift.
  rewrite roadmap_eq. cbn [app].
  destruct w as [[b|] [c|] d o]; cbn [HappyMe.bmiChart HappyMe.weightChart
    HappyMe.dietSummary HappyMe.destroyed]; eexists; reflexivity.
Qed.

End Rendering.

(** C5.  The weight roadmap has exactly 4 points; the first is the starting
    weight plus one period's delta and each next point adds the delta again,
    each written with one decimal.  The delta is -0.5 for the goal "lose",
    +0.5 for "gain" and 0 for "maintain".  From 80 kg the goal "lose" gives
    79.5, 79.0, 78.5, 78.0 and the goal "maintain" gives 80.0 four times. *)
Theorem weight_projection (bmi : string) (calories weight : number) (goal : string) (w : World) :
  exists w' chart,
    renderCharts bmi calories weight goal w = (Normal tt, w') /\
    weightChart w' = Some chart /\
    (let start := parseFloat_number weight in
     let delta := change goal in
     let week1 := add start delta in
     let week2 := add week1 delta in
     let week3 := add week2 delta in
     let week4 := add week3 delta in
     data chart = [DString (fixed week1 1); DString (fixed week2 1);
                   DString (fixed week3 1); DString (fixed week4 1)]) /\
    change "lose" = lit (-0.5) /\ change "gain" = lit 0.5 /\ change "maintain" = lit 0 /\
    option_map data
      (weightChart (snd (renderCharts "24.7" (of_Z 2259) (lit 80) "lose" Spec.fresh))) =
      Some [DString "79.5"; DString "79.0"; DString "78.5"; DString "78.0"] /\
    option_map data
      (weightChart (snd (renderCharts "24.7" (of_Z 2759) (lit 80) "maintain" Spec.fresh))) =
      Some [DString "80.0"; DString "80.0"; DString "80.0"; DString "80.0"].
Proof.
  destruct (renderCharts_eq bmi calories weight goal w) as [old ->].
  do 2 eexists. split; [reflexivity|]. split; [reflexivity|].
  split; [reflexivity|].
  split; [reflexivity|]. split; [reflexivity|]. split; [reflexivity|].
  split; evaluate.
Qed.

(** C6, as amended.  Whatever the starting weight and the goal, the labels
    of the roadmap are "Week 1", "Week 2", "Week 3", "Week 4" in this order,
    one for each of the 4 points. *)
Theorem roadmap_labels (bmi : string) (calories weight : number) (goal : string) (w : World) :
  exists w' chart,
    renderCharts bmi calories weight goal w = (Normal tt, w') /\
    weightChart w' = Some chart /\
    labels chart = ["Week 1"; "Week 2"; "Week 3"; "Week 4"] /\
    labels chart = map (fun i => "Week " ++ decimal i) [1; 2; 3; 4]%Z /\
    List.length (labels chart) = List.length (data chart).
Proof.
  destruct (renderCharts_eq bmi calories weight goal w) as [old ->].
  do 2 eexists. split; [reflexivity|]. split; [reflexivity|].
  split; [|split]; reflexivity.
Qed.

(** C6, as stated, fails: the labels are not "Period 1" to "Period 4". *)
Lemma roadmap_labels_not_period :
  exists w' chart,
    renderCharts "24.7" (of_Z 2259) (lit 80) "lose" Spec.fresh = (Normal tt, w') /\
    weightChart w' = Some chart /\
    labels chart <> ["Period 1"; "Period 2"; "Period 3"; "Period 4"].
Proof.
  destruct (renderCharts_eq "24.7" (of_Z 2259) (lit 80) "lose" Spec.fresh) as [old ->].
  do 2 eexists. split; [reflexivity|]. split; [reflexivity|].
  cbn [labels]. discriminate.
Qed.

(** C7, as amended.  For a preference that is none of "non-veg", "veg" and
    "vegan", and any goal, [renderDietPlan] fails with a TypeError: the
    catalog has no array under that key and the call [items.forEach] throws;
    no diet plan is written to the page, which is left as it was. *)
Theorem renderDietPlan_unknown_preference (pref goal : string) (w : World) :
  pref <> "non-veg" -> pref <> "veg" -> pref <> "vegan" ->
  renderDietPlan pref goal w = (Throw TypeError, w).
Proof.
  intros H1 H2 H3.
  assert (Hown : own HEALTH_DATA.diets pref = None).
  { unfold HEALTH_DATA.diets. cbn [own].
    rewrite (proj2 (strict_eq_false "non-veg" pref)) by congruence.
    rewrite (proj2 (strict_eq_false "veg" pref)) by congruence.
    rewrite (proj2 (strict_eq_false "vegan" pref)) by congruence.
    reflexivity. }
  unfold renderDietPlan, bindM, lift, get. rewrite Hown.
  destruct (existsb (strict_eq pref) Object_prototype); reflexivity.
Qed.

Lemma renderDietPlan_unknown_preference_witness :
  renderDietPlan "invalid-pref" "lose" Spec.fresh = (Throw TypeError, Spec.fresh).
Proof.
  apply renderDietPlan_unknown_preference; discriminate.
Defined.

(** C7, as stated, fails: the error raised for the preference "invalid-pref"
    is the runtime's TypeError; no UnknownPreferenceError exists. *)
Lemma unknown_preference_raises_TypeError :
  exists e,
    renderDietPlan "invalid-pref" "lose" Spec.fresh = (Throw e, Spec.fresh) /\
    error_name e = "TypeError" /\
    error_name e <> "UnknownPreferenceError".
Proof.
  exists TypeError. split; [evaluate|]. split; [reflexivity | discriminate].
Qed.

(** C8, as amended.  For each of the three recognized preferences the
    catalog holds exactly 3 meals, and for every goal [renderDietPlan]
    completes and writes to the page (it returns no value) the opening
    paragraph, exactly these meals in catalog order under the labels Meal 01,
    Meal 02 and Meal 03, and the weekly roadmap, whose target change reads
    "0kg / week" for "maintain" and "0.5kg / week", without a sign, for every
    other goal.  The text of the page is given in full. *)
Theorem renderDietPlan_catalog (pref : string) :
  In pref ["non-veg"; "veg"; "vegan"] ->
  exists meal1 meal2 meal3,
    In (pref, [meal1; meal2; meal3])
       [ ("non-veg", ["Grilled Salmon with Asparagus"; "Chicken Quinoa Bowl";
                      "Greek Yogurt & Berries"]);
         ("veg", ["Lentil Curry with Brown Rice"; "Roasted Chickpea Salad";
                  "Cottage Cheese Stir-fry"]);
         ("vegan", ["Tofu Scramble"; "Sweet Potato & Black Bean Tacos";
                    "Tempeh Buddha Bowl"]) ] /\
    get HEALTH_DATA.diets pref = Array [meal1; meal2; meal3] /\
    forall goal w, exists target,
      (goal = "maintain" -> target = "0kg") /\
      (goal <> "maintain" -> target = "0.5kg") /\
      let q := dquote in
      let meal (number food : string) :=
        newline ++ "            <div class=" ++ q ++ "diet-item" ++ q ++ ">" ++
        newline ++ "                <span class=" ++ q ++ "badge" ++ q ++ " style=" ++ q ++
          "margin-right:10px" ++ q ++ ">Meal " ++ number ++ "</span>" ++
        newline ++ "                <strong>" ++ food ++ "</strong>" ++
        newline ++ "            </div>" ++
        newline ++ "        " in
      renderDietPlan pref goal w =
      (Normal tt,
       set_dietSummary
         ("<p style=" ++ q ++ "margin-bottom:15px; color:var(--text-muted)" ++ q ++
          ">Based on your <strong>" ++ pref ++ "</strong> preference and <strong>" ++
          goal ++ "</strong> goal:</p>" ++
          meal "01" meal1 ++ meal "02" meal2 ++ meal "03" meal3 ++
          newline ++ "        <div class=" ++ q ++ "diet-item" ++ q ++ " style=" ++ q ++
            "border:none; margin-top:10px" ++ q ++ ">" ++
          newline ++ "            <h4>💡 Weekly Roadmap</h4>" ++
          newline ++ "            <p style=" ++ q ++
            "font-size:0.9rem; color:var(--text-muted)" ++ q ++ ">" ++
          newline ++ "                Target change: " ++ target ++ " / week. " ++
          newline ++ "                Keep hydration above 3L/day." ++
          newline ++ "            </p>" ++
          newline ++ "        </div>" ++
          newline ++ "    ")
         w).
Proof.
  assert (Hpos : Number_toString (add (of_Z 0) (lit 1)) = "1" /\
                 Number_toString (add (of_Z 1) (lit 1)) = "2" /\
                 Number_toString (add (of_Z 2) (lit 1)) = "3")
    by (vm_compute; repeat split).
  destruct Hpos as (P1 & P2 & P3).
  intros [<- | [<- | [<- | []]]]; do 3 eexists;
    (split; [cbn; tauto|]); (split; [reflexivity|]);
    intros goal w; exists (if strict_eq goal "maintain" then "0kg" else "0.5kg");
    (split; [intros ->; reflexivity|]);
    (split; [intros Hg; now rewrite (proj2 (strict_eq_false goal "maintain"))|]);
    cbv zeta; unfold renderDietPlan, bindM, lift, modify;
    match goal with |- context [get ?o ?k] =>
      let v := eval vm_compute in (get o k) in change (get o k) with v end;
    cbn [forEach forEach_from Z.add Pos.add]; rewrite P1, P2, P3;
    unfold diet_intro, meal_card, weekly_roadmap;
    rewrite !append_assoc; reflexivity.
Qed.

Lemma renderDietPlan_catalog_witness :
  exists page,
    renderDietPlan "vegan" "gain" Spec.fresh =
      (Normal tt, set_dietSummary page Spec.fresh) /\
    Spec.contains page "Meal 01</span>" = true /\
    Spec.contains page "<strong>Tofu Scramble</strong>" = true /\
    Spec.contains page "<strong>Tempeh Buddha Bowl</strong>" = true /\
    Spec.contains page "Target change: 0.5kg / week." = true.
Proof.
  destruct (renderDietPlan_catalog "vegan") as (m1 & m2 & m3 & _ & Hget & Hrender).
  - right. right. left. reflexivity.
  - vm_compute in Hget. injection Hget as <- <- <-.
    destruct (Hrender "gain" Spec.fresh) as (target & _ & Hgain & Hpage).
    rewrite (Hgain ltac:(discriminate)) in Hpage. cbv zeta in Hpage.
    eexists. split; [exact Hpage|]. repeat split; evaluate.
Defined.

(** C8, as stated, fails: the annotations "0 kg/week" and "0.5 kg/week" are
    nowhere on the page; the page reads "0kg / week" and "0.5kg / week". *)
Lemma annotation_text_not_on_page :
  exists page_maintain page_gain,
    renderDietPlan "vegan" "maintain" Spec.fresh =
      (Normal tt, set_dietSummary page_maintain Spec.fresh) /\
    renderDietPlan "vegan" "gain" Spec.fresh =
      (Normal tt, set_dietSummary page_gain Spec.fresh) /\
    Spec.contains page_maintain "0 kg/week" = false /\
    Spec.contains page_gain "0.5 kg/week" = false /\
    Spec.contains page_maintain "Target change: 0kg / week." = true /\
    Spec.contains page_gain "Target change: 0.5kg / week." = true.
Proof.
  do 2 eexists. split; [evaluate|]. split; [evaluate|]. repeat split; evaluate.
Qed.

(** * The rest of the script *)

Import Browser UI.

(** ** Theme and storage *)
Section Theme.

Lemma getItem_setItem (area : Storage) (key value : string) :
  getItem (setItem area key value) key = Some value.
Proof.
  induction area as [|[k v] rest IH]; cbn [setItem getItem].
  - now rewrite (proj2 (strict_eq_true key key)).
  - destruct (strict_eq k key) eqn:E; cbn [getItem]; rewrite E; [reflexivity | exact IH].
Qed.

Lemma getItem_setItem_other (area : Storage) (key other value : string) :
  key <> other -> getItem (setItem area key value) other = getItem area other.
Proof.
  intros Hne. induction area as [|[k v] rest IH]; cbn [setItem getItem].
  - now rewrite (proj2 (strict_eq_false key other)).
  - destruct (strict_eq k key) eqn:E; cbn [getItem].
    + apply strict_eq_true in E. subst k.
      now rewrite (proj2 (strict_eq_false key other)).
    + now rewrite IH.
Qed.

(** Writing a key that is present keeps the number of items. *)
Lemma setItem_length (area : Storage) (key value : string) :
  List.length (setItem area key value) =
  match getItem area key with
  | Some _ => List.length area
  | None => S (List.length area)
  end.
Proof.
  induction area as [|[k v] rest IH]; cbn [setItem getItem List.length]; [reflexivity|].
  destruct (strict_eq k key); cbn [List.length]; [reflexivity|].
  rewrite IH. now destruct (getItem rest key).
Qed.

(** What [toggleTheme] does to the theme and to the storage. *)
Lemma toggleTheme_eq (p : Page) :
  let next := match data_theme p with
              | Some c => if strict_eq c "light" then "dark" else "light"
              | None => "light"
              end in
  toggleTheme p =
  (Normal tt,
   set_localStorage (setItem (localStorage p) "theme" next) (set_data_theme next p)).
Proof. reflexivity. Qed.

End Theme.

(** X1.  Toggling twice gives back the theme the page had, light or dark,
    on the page and in the storage. *)
Theorem toggleTheme_twice (p : Page) (theme : string) :
  data_theme p = Some theme -> theme = "light" \/ theme = "dark" ->
  let p2 := snd (toggleTheme (snd (toggleTheme p))) in
  data_theme p2 = Some theme /\ getItem (localStorage p2) "theme" = Some theme.
Proof.
  intros Hp [-> | ->]; rewrite !toggleTheme_eq; cbn [snd];
    cbn [data_theme set_localStorage set_data_theme localStorage]; rewrite Hp;
    cbn [strict_eq String.eqb Ascii.eqb Bool.eqb data_theme];
    (split; [reflexivity | apply getItem_setItem]).
Qed.

Lemma toggleTheme_twice_witness :
  let p2 := snd (toggleTheme (snd (toggleTheme (set_data_theme "dark" blank)))) in
  data_theme p2 = Some "dark" /\ getItem (localStorage p2) "theme" = Some "dark".
Proof.
  exact (toggleTheme_twice (set_data_theme "dark" blank) "dark" eq_refl (or_intror eq_refl)).
Defined.


(** X2.  The theme chosen by a toggle survives a reload: on any page that
    has the storage the toggle left, [initTheme] shows the theme the toggle
    showed. *)
Theorem toggleTheme_survives_reload (p reloaded : Page) :
  localStorage reloaded = localStorage (snd (toggleTheme p)) ->
  data_theme (snd (initTheme reloaded)) = data_theme (snd (toggleTheme p)).
Proof.
  intros Hs. unfold initTheme, update. cbn [snd]. rewrite Hs, toggleTheme_eq.
  cbn [snd set_localStorage set_data_theme localStorage data_theme].
  rewrite getItem_setItem.
  destruct (data_theme p) as [c|]; [destruct (strict_eq c "light")|]; reflexivity.
Qed.

Lemma toggleTheme_survives_reload_witness :
  data_theme (snd (initTheme (snd (toggleTheme blank)))) = Some "light".
Proof.
  rewrite (toggleTheme_survives_reload blank (snd (toggleTheme blank)) eq_refl).
  reflexivity.
Defined.

(** X3.  The first toggle after a page load: [initTheme] followed by
    [toggleTheme] shows dark when no theme, the empty string or "light" was
    stored, and light for any other stored text; the storage then holds the
    theme shown. *)
Theorem first_toggle_after_load (p : Page) :
  let p2 := snd (toggleTheme (snd (initTheme p))) in
  let shown :=
    match getItem (localStorage p) "theme" with
    | None => "dark"
    | Some saved =>
        if strict_eq saved "" || strict_eq saved "light" then "dark" else "light"
    end in
  data_theme p2 = Some shown /\ getItem (localStorage p2) "theme" = Some shown.
Proof.
  cbv zeta. rewrite toggleTheme_eq. unfold initTheme, update.
  cbn [snd set_localStorage set_data_theme localStorage data_theme].
  rewrite getItem_setItem.
  destruct (getItem (localStorage p) "theme") as [saved|]; [|split; reflexivity].
  destruct (strict_eq saved "") eqn:E; [split; reflexivity|].
  cbn [orb]. destruct (strict_eq saved "light"); split; reflexivity.
Qed.

(** X4.  The two stored items do not disturb each other: a toggle keeps the
    stored report, and saving a report keeps the stored theme and the theme
    shown. *)
Theorem theme_and_report_are_separate
    (p : Page) (inputs : FormData) (results : HealthResult) (date : string) :
  getItem (localStorage (snd (toggleTheme p))) "lastHealthReport" =
    getItem (localStorage p) "lastHealthReport" /\
  getItem (localStorage (snd (saveToLocal inputs results date p))) "theme" =
    getItem (localStorage p) "theme" /\
  data_theme (snd (saveToLocal inputs results date p)) = data_theme p.
Proof.
  rewrite toggleTheme_eq. unfold saveToLocal, update.
  cbn [snd set_localStorage set_data_theme localStorage data_theme].
  split; [|split]; try reflexivity; apply getItem_setItem_other; discriminate.
Qed.

(** X5.  Only the last report is kept: after two saves the stored report
    is the text of the second, and the second save added no item. *)
Theorem saveToLocal_keeps_last_only
    (p : Page) (inputs1 inputs2 : FormData) (results1 results2 : HealthResult)
    (date1 date2 : string) :
  let p1 := snd (saveToLocal inputs1 results1 date1 p) in
  let p2 := snd (saveToLocal inputs2 results2 date2 p1) in
  getItem (localStorage p2) "lastHealthReport" =
    Some (stringify (report inputs2 results2 date2)) /\
  List.length (localStorage p2) = List.length (localStorage p1).
Proof.
  unfold saveToLocal, update.
  cbn [snd set_localStorage localStorage].
  split; [apply getItem_setItem|].
  now rewrite (setItem_length (setItem _ _ _)), getItem_setItem.
Qed.


(** ** Badge, charts and diet plan *)
Section Display.

(** [renderDietPlan] either writes a page for the catalog entry of the
    preference or throws and leaves everything as it was. *)
Lemma renderDietPlan_cases (pref goal : string) (w : World) :
  (exists html, renderDietPlan pref goal w = (Normal tt, set_dietSummary html w)) \/
  renderDietPlan pref goal w = (Throw TypeError, w).
Proof.
  unfold renderDietPlan, bindM, lift, modify.
  destruct (get HEALTH_DATA.diets pref) as [| items | name]; cbn [forEach].
  - now right.
  - left. eexists. reflexivity.
  - now right.
Qed.

(** The text written does not depend on the page it is written to. *)
Lemma renderDietPlan_text (pref goal : string) (w1 w2 : World) :
  fst (renderDietPlan pref goal w1) = fst (renderDietPlan pref goal w2) /\
  (fst (renderDietPlan pref goal w1) = Normal tt ->
   dietSummary (snd (renderDietPlan pref goal w1)) =
   dietSummary (snd (renderDietPlan pref goal w2))).
Proof.
  unfold renderDietPlan, bindM, lift, modify.
  destruct (get HEALTH_DATA.diets pref) as [| items | name]; cbn [forEach fst snd];
    split; try reflexivity; discriminate.
Qed.

Lemma recognized_get (pref : string) :
  recognized pref <-> exists items, get HEALTH_DATA.diets pref = Array items.
Proof.
  unfold recognized. split.
  - intros [<- | [<- | [<- | []]]]; eexists; reflexivity.
  - intros [items H]. unfold get, HEALTH_DATA.diets in H. cbn [own] in H.
    destruct (strict_eq "non-veg" pref) eqn:E1;
      [apply strict_eq_true in E1; subst; cbn; tauto|].
    destruct (strict_eq "veg" pref) eqn:E2;
      [apply strict_eq_true in E2; subst; cbn; tauto|].
    destruct (strict_eq "vegan" pref) eqn:E3;
      [apply strict_eq_true in E3; subst; cbn; tauto|].
    destruct (existsb (strict_eq pref) Object_prototype); discriminate.
Qed.

(** Every category the engine can return has its badge. *)
Lemma category_badge (bmi : number) :
  exists badge, get_badge (getBMICategory bmi) = Entry badge.
Proof.
  unfold getBMICategory.
  destruct (lt bmi (lit 18.5)); [|destruct (lt bmi (lit 25)); [|destruct (lt bmi (lit 30))]];
    eexists; reflexivity.
Qed.

Lemma set_dietSummary_twice (html : string) (w : World) :
  set_dietSummary html (set_dietSummary html w) = set_dietSummary html w.
Proof. reflexivity. Qed.

End Display.

(** X6.  Every category [getBMICategory] can return, for any Number at all,
    has an entry in [HEALTH_DATA.bmiCategories], so the badge always has a
    label and a colour; for a finite BMI the badge reads "Healthy" exactly
    when the BMI lies in [18.5, 25). *)
Theorem every_category_has_a_badge (bmi : number) :
  exists badge,
    get_badge (getBMICategory bmi) = Entry badge /\
    In (label badge) ["Underweight"; "Healthy"; "Overweight"; "Obese"] /\
    (is_number bmi = true -> is_finite bmi = true ->
     (label badge = "Healthy" <-> 18.5 <= to_Q bmi /\ to_Q bmi < 25)%Q).
Proof.
  unfold getBMICategory.
  destruct (lt bmi (lit 18.5)) eqn:E1;
    [|destruct (lt bmi (lit 25)) eqn:E2; [|destruct (lt bmi (lit 30)) eqn:E3]];
    eexists; (split; [reflexivity|]); (split; [cbn; tauto|]); intros V F;
    destruct (threshold_lt bmi _ _ threshold_18_5 V F) as [[H1 Q1] | [H1 Q1]];
    destruct (threshold_lt bmi _ _ threshold_25 V F) as [[H2 Q2] | [H2 Q2]];
    try congruence; cbn [label]; split; try discriminate; try (intros; split; assumption);
    intros [? ?]; exfalso; lra.
Qed.

Lemma every_category_has_a_badge_witness :
  exists badge,
    get_badge (getBMICategory (Spec.BMI (lit 70) (lit 170))) = Entry badge /\
    label badge = "Healthy".
Proof.
  destruct (every_category_has_a_badge (Spec.BMI (lit 70) (lit 170)))
    as (badge & Hget & _ & Hhealthy).
  exists badge. split; [exact Hget|].
  apply (Hhealthy eq_refl eq_refl). split; vm_compute; [discriminate | reflexivity].
Defined.

(** X7.  [renderCharts] destroys exactly the charts it replaces: the charts
    the two globals held are added to the destroyed ones, both globals then
    hold a chart, and the diet plan is not touched. *)
Theorem renderCharts_destroys_what_it_replaces
    (bmi : string) (calories weight : number) (goal : string) (w : World) :
  exists w',
    renderCharts bmi calories weight goal w = (Normal tt, w') /\
    destroyed w' = (held (weightChart w) ++ held (bmiChart w) ++ destroyed w)%list /\
    bmiChart w' <> None /\ weightChart w' <> None /\
    dietSummary w' = dietSummary w.
Proof.
  unfold renderCharts, bindM, destroy, modify, lift.
  rewrite roadmap_eq.
  destruct w as [[b|] [c|] d o]; cbn [HappyMe.bmiChart HappyMe.weightChart
    HappyMe.dietSummary HappyMe.destroyed]; eexists; (split; [reflexivity|]);
    cbn [HappyMe.bmiChart HappyMe.weightChart HappyMe.dietSummary HappyMe.destroyed held app];
    repeat split; discriminate.
Qed.

(** X8.  [renderDietPlan] replaces the diet plan and never appends to it:
    rendering again with the same preference and goal changes nothing, the
    text written does not depend on what the page showed before, and the
    charts are not touched. *)
Theorem renderDietPlan_replaces (pref goal : string) (w other : World) :
  let first := renderDietPlan pref goal w in
  renderDietPlan pref goal (snd first) = first /\
  (fst first = Normal tt ->
   dietSummary (snd first) = dietSummary (snd (renderDietPlan pref goal other))) /\
  bmiChart (snd first) = bmiChart w /\ weightChart (snd first) = weightChart w /\
  destroyed (snd first) = destroyed w.
Proof.
  cbv zeta. split; [|split; [apply renderDietPlan_text|]].
  - destruct (renderDietPlan_cases pref goal w) as [[html H] | H]; rewrite H; cbn [snd].
    + destruct (renderDietPlan_text pref goal (set_dietSummary html w) w) as [Hf Hd].
      rewrite H in Hf, Hd. cbn [fst snd] in Hf, Hd.
      destruct (renderDietPlan_cases pref goal (set_dietSummary html w))
        as [[html' H'] | H']; rewrite H' in *; cbn [fst snd] in *; [|discriminate].
      specialize (Hd eq_refl). cbn [dietSummary set_dietSummary] in Hd. subst html'.
      reflexivity.
    + exact H.
  - destruct (renderDietPlan_cases pref goal w) as [[html H] | H]; rewrite H; cbn [snd];
      repeat split.
Qed.


(** ** Submitting the form *)
Section Submission.

(** What [handleFormSubmit] leaves for its timer. *)
Lemma handleFormSubmit_eq (p : Page) :
  handleFormSubmit p =
  (Normal ({| bmi := fixed (Spec.BMI_of (read_form (form p))) 1;
              calories := Math_round (Spec.adjusted (Spec.TDEE_of (read_form (form p)))
                                                    (goal_value (form p)));
              category := getBMICategory (Spec.BMI_of (read_form (form p))) |},
           read_form (form p)),
   set_button "0" "block" true p).
Proof.
  unfold handleFormSubmit, bindP, update.
  cbn [form set_button]. now rewrite calculateHealthMetrics_eq.
Qed.

End Submission.

(** X9.  A submission with a recognized preference, once its timer has run:
    the page shows the BMI text, the calories in the locale's format and the
    badge of the category; both charts and the diet plan are rendered; the
    item "lastHealthReport" holds the JSON text of the inputs (age, gender,
    height, weight, activity, goal, preference, as read from the form), the
    results (bmi, calories, category) and the date, in this order, a Number
    that is not finite written null; the button is idle again and the
    results are visible; the theme is untouched. *)
Theorem submit_shows_and_saves (toLocaleString : number -> string) (date : string) (p : Page) :
  recognized (preference_value (form p)) ->
  exists results badge p',
    calculateHealthMetrics (read_form (form p)) = Normal results /\
    get_badge (category results) = Entry badge /\
    submit toLocaleString date p = (Normal tt, p') /\
    bmiValue p' = bmi results /\
    calorieValue p' = toLocaleString (calories results) /\
    bmiStatus p' = label badge /\
    bmiStatus_background p' = color badge ++ "20" /\
    bmiStatus_color p' = color badge /\
    bmiChart (world p') <> None /\ weightChart (world p') <> None /\
    fst (renderDietPlan (preference_value (form p)) (goal_value (form p)) (world p)) =
      Normal tt /\
    dietSummary (world p') =
      dietSummary (snd (renderDietPlan (preference_value (form p)) (goal_value (form p))
                                       (world p))) /\
    (let key (name : string) := dquote ++ name ++ dquote ++ ":" in
     let num (x : number) := if is_finite x then Number_toString x else "null" in
     getItem (localStorage p') "lastHealthReport" =
       Some ("{" ++ key "inputs" ++ "{" ++
               key "age" ++ num (parseInt (age_value (form p))) ++ "," ++
               key "gender" ++ QuoteJSONString (gender_value (form p)) ++ "," ++
               key "height" ++ num (parseInt (height_value (form p))) ++ "," ++
               key "weight" ++ num (parseInt (weight_value (form p))) ++ "," ++
               key "activity" ++ QuoteJSONString (activity_value (form p)) ++ "," ++
               key "goal" ++ QuoteJSONString (goal_value (form p)) ++ "," ++
               key "preference" ++ QuoteJSONString (preference_value (form p)) ++
             "}," ++
             key "results" ++ "{" ++
               key "bmi" ++ QuoteJSONString (bmi results) ++ "," ++
               key "calories" ++ num (calories results) ++ "," ++
               key "category" ++ QuoteJSONString (category results) ++
             "}," ++
             key "date" ++ QuoteJSONString date ++ "}")) /\
    analyzeBtn_disabled p' = false /\ btnText_opacity p' = "1" /\
    loader_display p' = "none" /\ resultsArea_hidden p' = false /\
    data_theme p' = data_theme p.
Proof.
  intros Hpref. apply recognized_get in Hpref. destruct Hpref as [items Hitems].
  destruct (category_badge (Spec.BMI_of (read_form (form p)))) as [badge Hbadge].
  destruct (submit toLocaleString date p) as [c p'] eqn:Hs.
  unfold submit, bindP in Hs. rewrite handleFormSubmit_eq in Hs. cbn [fst snd] in Hs.
  unfold handleFormSubmit_timeout, updateUI, saveToLocal, bindP, update, on_world, throw in Hs.
  cbn [category bmi calories] in Hs. rewrite Hbadge in Hs.
  cbn [world set_button set_bmiValue set_calorieValue set_bmiStatus set_bmiStatus_style
       set_world read_form weight goal preference] in Hs.
  destruct (renderCharts_eq
              (fixed (Spec.BMI_of (read_form (form p))) 1)
              (Math_round (Spec.adjusted (Spec.TDEE_of (read_form (form p)))
                                         (goal_value (form p))))
              (parseInt (weight_value (form p))) (goal_value (form p)) (world p))
    as (old & Hcharts).
  rewrite Hcharts in Hs. cbn [world set_world] in Hs.
  match type of Hs with context [renderDietPlan ?a ?b ?w] => set (w1 := w) in * end.
  destruct (renderDietPlan_text (preference_value (form p)) (goal_value (form p))
              w1 (world p)) as [Hfst Htext].
  assert (Hok : fst (renderDietPlan (preference_value (form p)) (goal_value (form p)) w1)
                = Normal tt).
  { unfold renderDietPlan, bindM, lift, modify. rewrite Hitems. reflexivity. }
  specialize (Htext Hok).
  destruct (renderDietPlan_cases (preference_value (form p)) (goal_value (form p)) w1)
    as [[html H] | H]; rewrite H in *; cbn [fst snd] in *; [|discriminate].
  injection Hs as <- <-.
  eexists. exists badge. eexists.
  split; [apply calculateHealthMetrics_eq|].
  split; [exact Hbadge|].
  split; [reflexivity|].
  cbn [bmiValue calorieValue bmiStatus bmiStatus_background bmiStatus_color world
       localStorage analyzeBtn_disabled btnText_opacity loader_display resultsArea_hidden
       data_theme set_world set_localStorage set_button set_resultsArea_hidden
       set_bmiValue set_calorieValue set_bmiStatus set_bmiStatus_style bmi calories].
  repeat (split; [reflexivity|]).
  subst w1. cbn [HappyMe.bmiChart HappyMe.weightChart set_dietSummary].
  split; [discriminate|]. split; [discriminate|].
  split; [now rewrite <- Hfst|].
  split; [exact Htext|].
  split; [|repeat split].
  cbv zeta. rewrite getItem_setItem. f_equal.
  cbn [stringify report map join fst snd read_form age gender height weight activity
       goal preference bmi calories category].
  unfold QuoteJSONString, dquote.
  repeat (progress (cbn [append]; rewrite ?append_assoc)). reflexivity.
Qed.

Lemma submit_shows_and_saves_witness :
  exists p',
    submit Number_toString "11/2/2026" (set_form (filled "veg") blank) = (Normal tt, p') /\
    bmiValue p' = "24.7" /\ calorieValue p' = "2759" /\ bmiStatus p' = "Healthy" /\
    analyzeBtn_disabled p' = false /\
    (let q := dquote in
     getItem (localStorage p') "lastHealthReport" =
       Some ("{" ++ q ++ "inputs" ++ q ++ ":{" ++
               q ++ "age" ++ q ++ ":30," ++
               q ++ "gender" ++ q ++ ":" ++ q ++ "male" ++ q ++ "," ++
               q ++ "height" ++ q ++ ":180," ++
               q ++ "weight" ++ q ++ ":80," ++
               q ++ "activity" ++ q ++ ":" ++ q ++ "1.55" ++ q ++ "," ++
               q ++ "goal" ++ q ++ ":" ++ q ++ "maintain" ++ q ++ "," ++
               q ++ "preference" ++ q ++ ":" ++ q ++ "veg" ++ q ++ "}," ++
             q ++ "results" ++ q ++ ":{" ++
               q ++ "bmi" ++ q ++ ":" ++ q ++ "24.7" ++ q ++ "," ++
               q ++ "calories" ++ q ++ ":2759," ++
               q ++ "category" ++ q ++ ":" ++ q ++ "normal" ++ q ++ "}," ++
             q ++ "date" ++ q ++ ":" ++ q ++ "11/2/2026" ++ q ++ "}")).
Proof.
  destruct (submit_shows_and_saves Number_toString "11/2/2026" (set_form (filled "veg") blank))
    as (results & badge & p' & Hr & Hb & Hs & Hbmi & Hcal & Hst & _ & _ & _ & _ & _ & _
        & Hstored & Hbtn & _).
  - right. left. reflexivity.
  - exists p'. split; [exact Hs|].
    vm_compute in Hr. injection Hr as <-.
    vm_compute in Hb. injection Hb as <-.
    cbv zeta in Hstored |- *.
    rewrite Hbmi, Hcal, Hst, Hbtn, Hstored. repeat split.
Defined.

(** X10.  A submission whose preference is not recognized, once its timer
    has run: the callback throws a TypeError after the BMI text, the
    calories, the badge and the charts were updated; the diet plan keeps its
    old text, nothing is stored, the results stay as hidden as they were,
    and the button stays disabled with its loader shown. *)
Theorem submit_with_unknown_preference
    (toLocaleString : number -> string) (date : string) (p : Page) :
  ~ recognized (preference_value (form p)) ->
  exists results badge p',
    calculateHealthMetrics (read_form (form p)) = Normal results /\
    get_badge (category results) = Entry badge /\
    submit toLocaleString date p = (Throw TypeError, p') /\
    bmiValue p' = bmi results /\
    calorieValue p' = toLocaleString (calories results) /\
    bmiStatus p' = label badge /\
    bmiChart (world p') <> None /\ weightChart (world p') <> None /\
    dietSummary (world p') = dietSummary (world p) /\
    localStorage p' = localStorage p /\
    analyzeBtn_disabled p' = true /\ btnText_opacity p' = "0" /\
    loader_display p' = "block" /\
    resultsArea_hidden p' = resultsArea_hidden p.
Proof.
  intros Hpref.
  destruct (category_badge (Spec.BMI_of (read_form (form p)))) as [badge Hbadge].
  destruct (submit toLocaleString date p) as [c p'] eqn:Hs.
  unfold submit, bindP in Hs. rewrite handleFormSubmit_eq in Hs. cbn [fst snd] in Hs.
  unfold handleFormSubmit_timeout, updateUI, saveToLocal, bindP, update, on_world, throw in Hs.
  cbn [category bmi calories] in Hs. rewrite Hbadge in Hs.
  cbn [world set_button set_bmiValue set_calorieValue set_bmiStatus set_bmiStatus_style
       set_world read_form weight goal preference] in Hs.
  destruct (renderCharts_eq
              (fixed (Spec.BMI_of (read_form (form p))) 1)
              (Math_round (Spec.adjusted (Spec.TDEE_of (read_form (form p)))
                                         (goal_value (form p))))
              (parseInt (weight_value (form p))) (goal_value (form p)) (world p))
    as (old & Hcharts).
  rewrite Hcharts in Hs. cbn [world set_world] in Hs.
  match type of Hs with context [renderDietPlan ?a ?b ?w] => set (w1 := w) in * end.
  destruct (renderDietPlan_cases (preference_value (form p)) (goal_value (form p)) w1)
    as [[html H] | H].
  - exfalso. apply Hpref, recognized_get.
    unfold renderDietPlan, bindM, lift, modify in H.
    destruct (get HEALTH_DATA.diets (preference_value (form p))) as [| items | name];
      cbn [forEach] in H; try discriminate. now exists items.
  - rewrite H in Hs. injection Hs as <- <-.
    eexists. exists badge. eexists.
    split; [apply calculateHealthMetrics_eq|].
    split; [exact Hbadge|].
    split; [reflexivity|].
    cbn [bmiValue calorieValue bmiStatus world localStorage analyzeBtn_disabled
         btnText_opacity loader_display resultsArea_hidden set_world set_button
         set_bmiValue set_calorieValue set_bmiStatus set_bmiStatus_style bmi calories].
    subst w1. cbn [HappyMe.bmiChart HappyMe.weightChart HappyMe.dietSummary].
    repeat (split; [first [reflexivity | discriminate]|]). reflexivity.
Qed.

Lemma submit_with_unknown_preference_witness :
  exists p',
    submit Number_toString "11/2/2026" (set_form (filled "keto") blank) =
      (Throw TypeError, p') /\
    analyzeBtn_disabled p' = true /\ localStorage p' = [] /\ bmiValue p' = "24.7".
Proof.
  destruct (submit_with_unknown_preference Number_toString "11/2/2026"
              (set_form (filled "keto") blank))
    as (results & badge & p' & Hr & _ & Hs & Hbmi & _ & _ & _ & _ & _ & Hst & Hbtn & _).
  - intros [H | [H | [H | []]]]; discriminate H.
  - exists p'. split; [exact Hs|].
    vm_compute in Hr. injection Hr as <-.
    rewrite Hbtn, Hst, Hbmi. repeat split.
Defined.


(** ** Reading the form *)
Section Reading.

Lemma decimal_digit_cases (c : ascii) :
  is_decimal_digit c = true ->
  In c ["0"; "1"; "2"; "3"; "4"; "5"; "6"; "7"; "8"; "9"]%char.
Proof.
  destruct c as [[] [] [] [] [] [] [] []]; intros H; try discriminate H; cbn; tauto.
Qed.



Lemma trim_start_digit (c : ascii) (r : string) :
  is_decimal_digit c = true -> trim_start (String c r) = String c r.
Proof.
  intros Hc. apply decimal_digit_cases in Hc.
  repeat (destruct Hc as [<- | Hc];
          [destruct r as [|c2 [|c3 r3]]; reflexivity|]).
  destruct Hc.
Qed.


End Reading.




(** ** Inputs that are not numbers *)
Section NotANumber.

Lemma add_NaN_l x : add NaN x = NaN.
Proof. reflexivity. Qed.
Lemma add_NaN_r x : add x NaN = NaN.
Proof. now destruct x. Qed.
Lemma sub_NaN_l x : sub NaN x = NaN.
Proof. reflexivity. Qed.
Lemma sub_NaN_r x : sub x NaN = NaN.
Proof. now destruct x. Qed.
Lemma mul_NaN_l x : mul NaN x = NaN.
Proof. reflexivity. Qed.
Lemma mul_NaN_r x : mul x NaN = NaN.
Proof. now destruct x. Qed.
Lemma div_NaN_l x : div NaN x = NaN.
Proof. reflexivity. Qed.
Lemma div_NaN_r x : div x NaN = NaN.
Proof. now destruct x. Qed.

Lemma adjusted_NaN (goal : string) : Spec.adjusted NaN goal = NaN.
Proof.
  unfold Spec.adjusted.
  destruct (strict_eq goal "lose"); [reflexivity|].
  destruct (strict_eq goal "gain"); reflexivity.
Qed.

(** A field that holds no digit after its white space and sign is read as
    NaN; an empty field is one. *)
Lemma parseInt_blank (s : string) : trim_start s = "" -> parseInt s = NaN.
Proof. intros H. unfold parseInt. now rewrite H. Qed.

End NotANumber.

Create Rewrite HintDb nan.
#[local] Hint Rewrite add_NaN_l add_NaN_r sub_NaN_l sub_NaN_r mul_NaN_l mul_NaN_r
  div_NaN_l div_NaN_r adjusted_NaN : nan.

(** X12.  NaN is never rejected and spreads to the result: if the age,
    the height or the weight is NaN, or the activity does not parse as a
    number, the calorie target is NaN; if the height or the weight is NaN,
    the BMI text is "NaN" and the category is "obese". *)
Theorem NaN_spreads_to_the_result (data : FormData) :
  exists r, calculateHealthMetrics data = Normal r /\
    (age data = NaN \/ height data = NaN \/ weight data = NaN \/
     parseFloat_string (activity data) = NaN -> calories r = NaN) /\
    (height data = NaN \/ weight data = NaN ->
     bmi r = "NaN" /\ category r = "obese").
Proof.
  eexists. split; [apply calculateHealthMetrics_eq|].
  cbn [calories bmi category].
  unfold Spec.TDEE_of, Spec.TDEE, Spec.BMR, Spec.base, Spec.BMI_of, Spec.BMI.
  split.
  - intros [H | [H | [H | H]]]; rewrite H;
      destruct (strict_eq (gender data) "male");
      autorewrite with nan; reflexivity.
  - intros [H | H]; rewrite H; autorewrite with nan; split; reflexivity.
Qed.

Lemma NaN_spreads_to_the_result_witness :
  exists r,
    calculateHealthMetrics (Spec.measured (lit 30) (lit 180) NaN) = Normal r /\
    calories r = NaN /\ bmi r = "NaN" /\ category r = "obese".
Proof.
  destruct (NaN_spreads_to_the_result (Spec.measured (lit 30) (lit 180) NaN))
    as (r & Hr & Hc & Hb).
  exists r. split; [exact Hr|]. split.
  - apply Hc. right. right. left. reflexivity.
  - apply Hb. right. reflexivity.
Defined.

(** X13.  A blank weight or height field is submitted all the same: the
    result has the BMI text "NaN", the category "obese", whose badge reads
    "Obese", and NaN calories, which the stored report writes as null. *)
Theorem blank_field_is_submitted (p : Page) :
  trim_start (weight_value (form p)) = "" \/ trim_start (height_value (form p)) = "" ->
  exists results formData p',
    handleFormSubmit p = (Normal (results, formData), p') /\
    bmi results = "NaN" /\ category results = "obese" /\ calories results = NaN /\
    get_badge (category results) =
      Entry {| label := "Obese"; color := "#f87171" |} /\
    stringify (JNumber (calories results)) = "null".
Proof.
  intros Hblank.
  assert (Hnan : height (read_form (form p)) = NaN \/ weight (read_form (form p)) = NaN).
  { destruct Hblank as [H | H]; [right | left]; cbn [read_form height weight];
      now apply parseInt_blank. }
  rewrite handleFormSubmit_eq. do 3 eexists. split; [reflexivity|].
  cbn [bmi category calories].
  assert (Hbmi : Spec.BMI_of (read_form (form p)) = NaN).
  { unfold Spec.BMI_of, Spec.BMI. destruct Hnan as [H | H]; rewrite H;
      now autorewrite with nan. }
  assert (Htdee : Spec.TDEE_of (read_form (form p)) = NaN).
  { unfold Spec.TDEE_of, Spec.TDEE, Spec.BMR, Spec.base.
    destruct Hnan as [H | H]; rewrite H;
      destruct (strict_eq _ "male"); now autorewrite with nan. }
  rewrite Hbmi, Htdee, adjusted_NaN. repeat split.
Qed.

Lemma blank_field_is_submitted_witness :
  exists results formData p',
    handleFormSubmit (set_form {| age_value := "30"; gender_value := "male";
                                  height_value := "180"; weight_value := "  ";
                                  activity_value := "1.55"; goal_value := "maintain";
                                  preference_value := "veg" |} blank) =
      (Normal (results, formData), p') /\
    bmi results = "NaN" /\ category results = "obese".
Proof.
  destruct (blank_field_is_submitted
              (set_form {| age_value := "30"; gender_value := "male";
                           height_value := "180"; weight_value := "  ";
                           activity_value := "1.55"; goal_value := "maintain";
                           preference_value := "veg" |} blank))
    as (results & formData & p' & Hs & Hb & Hc & _).
  - left. reflexivity.
  - exists results, formData, p'. repeat split; assumption.
Defined.


(** ** The sign of the height *)
Section Sign.

Lemma binary_round_aux_negb (s : bool) (m e : Z) (l : location) :
  binary_round_aux prec emax (negb s) m e l = SFopp (binary_round_aux prec emax s m e l).
Proof.
  unfold binary_round_aux.
  destruct (shr_fexp prec emax m e l) as [mrs e'].
  destruct (shr_fexp prec emax _ e' loc_Exact) as [mrs' e''].
  destruct (shr_m mrs') as [|m'|m']; [reflexivity| |reflexivity].
  destruct (e'' <=? emax - prec)%Z; reflexivity.
Qed.

Lemma div_opp_l (x y : number) : div (SFopp x) y = SFopp (div x y).
Proof.
  destruct x as [sx | sx | | sx mx ex], y as [sy | sy | | sy my ey];
    try reflexivity; cbn [div SFdiv SFopp];
    try (now destruct sx, sy).
  destruct (SFdiv_core_binary prec emax (Z.pos mx) ex (Z.pos my) ey) as [[mz ez] lz].
  rewrite <- binary_round_aux_negb. now destruct sx, sy.
Qed.

Lemma mul_opp_opp (x y : number) : mul (SFopp x) (SFopp y) = mul x y.
Proof.
  destruct x as [sx | sx | | sx mx ex], y as [sy | sy | | sy my ey];
    try reflexivity; cbn [mul SFmul SFopp]; now destruct sx, sy.
Qed.

(** The BMI does not see the sign of the height. *)
Lemma BMI_opp_height (weightKg heightCm : number) :
  Spec.BMI weightKg (SFopp heightCm) = Spec.BMI weightKg heightCm.
Proof. unfold Spec.BMI. now rewrite div_opp_l, mul_opp_opp. Qed.

Lemma trim_start_minus (c : ascii) (r : string) :
  is_decimal_digit c = true -> trim_start (String "-" (String c r)) = String "-" (String c r).
Proof.
  intros Hc. apply decimal_digit_cases in Hc.
  repeat (destruct Hc as [<- | Hc]; [destruct r as [|c3 r3]; reflexivity|]).
  destruct Hc.
Qed.

Lemma SFopp_involutive (x : number) : SFopp (SFopp x) = x.
Proof. destruct x as [s | s | | s m e]; try reflexivity; now destruct s. Qed.

(** Reading digits never gives a negative integer. *)
Lemma read_int_nonneg (s : string) (acc count : Z) :
  (0 <= acc)%Z -> (0 <= fst (read_int 10 s acc count))%Z.
Proof.
  revert acc count. induction s as [|c r IH]; intros acc count Hacc; cbn [read_int];
    [exact Hacc|].
  destruct (digit_of 10 c) as [d|] eqn:E; [|exact Hacc].
  apply IH. unfold digit_of in E.
  set (n := Z.of_nat (nat_of_ascii c)) in *.
  destruct ((48 <=? n) && (n <=? 57))%Z eqn:E1.
  - apply andb_true_iff in E1. destruct E1 as [L1 _]. apply Z.leb_le in L1.
    destruct (n - 48 <? 10)%Z; inversion E. lia.
  - destruct ((97 <=? n) && (n <=? 122))%Z eqn:E2.
    + apply andb_true_iff in E2. destruct E2 as [L2 _]. apply Z.leb_le in L2.
      destruct (n - 87 <? 10)%Z; inversion E. lia.
    + destruct ((65 <=? n) && (n <=? 90))%Z eqn:E3; [|discriminate].
      apply andb_true_iff in E3. destruct E3 as [L3 _]. apply Z.leb_le in L3.
      destruct (n - 55 <? 10)%Z; inversion E. lia.
Qed.

Lemma of_Z_opp (m : positive) : of_Z (Zneg m) = SFopp (of_Z (Zpos m)).
Proof.
  unfold of_Z, binary_normalize, binary_round.
  destruct (shl_align m 0 _) as [mz ez].
  apply (binary_round_aux_negb false).
Qed.

(** A minus sign before the digits of a field negates the number read. *)
Lemma parseInt_minus (digits : string) :
  all_digits digits = true -> parseInt ("-" ++ digits) = SFopp (parseInt digits).
Proof.
  intros Hd. destruct digits as [|c r]; [discriminate|].
  assert (Hc : is_decimal_digit c = true).
  { destruct r; cbn [all_digits] in Hd; [exact Hd|]. now apply andb_true_iff in Hd. }
  unfold parseInt. cbn [append].
  rewrite trim_start_minus, trim_start_digit by exact Hc.
  pose proof (read_int_nonneg (String c r) 0 0 (Z.le_refl 0)) as Hpos.
  assert (Hgoal : forall rs : Z * Z, rs = read_int 10 (String c r) 0 0 ->
    (let '(mathInt, count) := rs in
     if (count =? 0)%Z then NaN
     else if (mathInt =? 0)%Z then S754_zero true else of_Z (- mathInt)) =
    SFopp (let '(mathInt, count) := rs in
           if (count =? 0)%Z then NaN
           else if (mathInt =? 0)%Z then S754_zero false else of_Z mathInt)).
  { intros [v n] Hrs. rewrite <- Hrs in Hpos. cbn [fst] in Hpos.
    destruct (n =? 0)%Z; [reflexivity|].
    destruct v as [|m|m]; [reflexivity | apply of_Z_opp | lia]. }
  apply decimal_digit_cases in Hc.
  destruct Hc as [<- | Hc].
  - destruct r as [|c' r']; [reflexivity|].
    assert (Hc' : is_decimal_digit c' = true).
    { destruct r'; cbn [all_digits] in Hd; apply andb_true_iff in Hd; destruct Hd as [_ Hd];
        [exact Hd|]. now apply andb_true_iff in Hd. }
    apply decimal_digit_cases in Hc'.
    repeat (destruct Hc' as [<- | Hc']; [cbv beta iota zeta; exact (Hgoal _ eq_refl)|]).
    destruct Hc'.
  - repeat (destruct Hc as [<- | Hc]; [cbv beta iota zeta; exact (Hgoal _ eq_refl)|]).
    destruct Hc.
Qed.

End Sign.


(** X14.  The BMI does not see the sign of the height: a height typed with
    a minus sign before its digits gives the BMI text and the category of
    the height typed without it. *)
Theorem minus_sign_on_the_height (p q : Page) :
  all_digits (height_value (form q)) = true ->
  height_value (form p) = "-" ++ height_value (form q) ->
  weight_value (form p) = weight_value (form q) ->
  exists results_p results_q,
    fst (handleFormSubmit p) = Normal (results_p, read_form (form p)) /\
    fst (handleFormSubmit q) = Normal (results_q, read_form (form q)) /\
    height (read_form (form p)) = SFopp (height (read_form (form q))) /\
    bmi results_p = bmi results_q /\
    category results_p = category results_q.
Proof.
  intros Hd Hh Hw. rewrite !handleFormSubmit_eq. do 2 eexists.
  split; [reflexivity|]. split; [reflexivity|].
  assert (Hopp : height (read_form (form p)) = SFopp (height (read_form (form q)))).
  { cbn [read_form height]. rewrite Hh. now apply parseInt_minus. }
  split; [exact Hopp|].
  assert (Hbmi : Spec.BMI_of (read_form (form p)) = Spec.BMI_of (read_form (form q))).
  { unfold Spec.BMI_of. rewrite Hopp, BMI_opp_height.
    cbn [read_form weight]. now rewrite Hw. }
  cbn [bmi category]. now rewrite Hbmi.
Qed.

Lemma minus_sign_on_the_height_witness :
  exists results,
    fst (handleFormSubmit
           (set_form {| age_value := "30"; gender_value := "male";
                        height_value := "-180"; weight_value := "80";
                        activity_value := "1.55"; goal_value := "maintain";
                        preference_value := "veg" |} blank)) =
      Normal (results,
              {| age := lit 30; gender := "male"; height := lit (-180); weight := lit 80;
                 activity := "1.55"; goal := "maintain"; preference := "veg" |}) /\
    bmi results = "24.7" /\ category results = "normal".
Proof.
  destruct (minus_sign_on_the_height
              (set_form {| age_value := "30"; gender_value := "male";
                           height_value := "-180"; weight_value := "80";
                           activity_value := "1.55"; goal_value := "maintain";
                           preference_value := "veg" |} blank)
              (set_form (filled "veg") blank) eq_refl eq_refl eq_refl)
    as (rp & rq & Hp & Hq & _ & Hb & Hc).
  exists rp. split; [exact Hp|].
  rewrite Hb, Hc. vm_compute in Hq. injection Hq as <-. split; reflexivity.
Defined.

(** ** The text of the BMI *)
Section OneDecimal.

Lemma all_digits_cons (c : ascii) (r : string) :
  all_digits (String c r) = true <->
  is_decimal_digit c = true /\ (r = "" \/ all_digits r = true).
Proof.
  destruct r as [|c' r']; cbn [all_digits].
  - split; [intros H; split; [exact H | now left] | now intros [H _]].
  - rewrite andb_true_iff. split; intros [H1 H2]; (split; [exact H1|]).
    + now right.
    + destruct H2 as [H2 | H2]; [discriminate | exact H2].
Qed.

Lemma all_digits_app (a b : string) :
  a = "" \/ all_digits a = true -> all_digits b = true -> all_digits (a ++ b) = true.
Proof.
  induction a as [|c r IH]; intros Ha Hb; [exact Hb|].
  destruct Ha as [Ha | Ha]; [discriminate|].
  apply all_digits_cons in Ha. destruct Ha as [Hc Hr].
  cbn [append]. apply all_digits_cons. split; [exact Hc|right]. now apply IH.
Qed.

Lemma zeros_digits (n : Z) : zeros n = "" \/ all_digits (zeros n) = true.
Proof.
  unfold zeros. induction (Z.to_nat n) as [|k IH]; [now left|right].
  cbn [repeat_string append]. apply all_digits_cons. split; [reflexivity | exact IH].
Qed.

Lemma string_of_uint_digits (u : Decimal.uint) :
  NilEmpty.string_of_uint u = "" \/ all_digits (NilEmpty.string_of_uint u) = true.
Proof.
  induction u as [|u IH|u IH|u IH|u IH|u IH|u IH|u IH|u IH|u IH|u IH];
    [now left | right ..]; cbn [NilEmpty.string_of_uint];
    apply all_digits_cons; (split; [reflexivity | exact IH]).
Qed.

Lemma decimal_digits (n : Z) : all_digits (decimal n) = true.
Proof.
  unfold decimal, NilZero.string_of_uint.
  destruct (N.to_uint (Z.to_N n)) eqn:E; try reflexivity;
    rewrite <- E at 1;
    (destruct (string_of_uint_digits (N.to_uint (Z.to_N n))) as [H | H];
     [rewrite E in H; discriminate H | rewrite E in H |- *; exact H]).
Qed.

(** The last character of a digit run is a digit. *)
Lemma last_digit (s : string) :
  all_digits s = true ->
  exists c, substring (String.length s - 1) 1 s = String c "" /\ is_decimal_digit c = true.
Proof.
  induction s as [|c r IH]; [discriminate|].
  intros H. apply all_digits_cons in H. destruct H as [Hc [-> | Hr]].
  - exists c. now split.
  - destruct (IH Hr) as (d & Hd & Hdd). exists d. split; [|exact Hdd].
    destruct r as [|c' r']; [discriminate|].
    cbn [String.length Nat.sub substring] in *.
    rewrite Nat.sub_0_r in Hd. exact Hd.
Qed.

(** What precedes the last character of a run of two digits or more is a
    digit run. *)
Lemma before_last_digit (s : string) :
  all_digits s = true -> (2 <= String.length s)%nat ->
  all_digits (substring 0 (String.length s - 1) s) = true.
Proof.
  induction s as [|c r IH]; [discriminate|].
  intros H Hlen. apply all_digits_cons in H. destruct H as [Hc [-> | Hr]].
  - cbn [String.length] in Hlen. lia.
  - destruct r as [|c' r']; [discriminate|].
    replace (String.length (String c (String c' r')) - 1)%nat
      with (S (String.length r')) by (cbn [String.length]; lia).
    change (substring 0 (S (String.length r')) (String c (String c' r')))
      with (String c (substring 0 (String.length r') (String c' r'))).
    apply all_digits_cons. split; [exact Hc|].
    destruct r' as [|c'' r'']; [now left | right].
    specialize (IH Hr).
    replace (String.length (String c' (String c'' r'')) - 1)%nat
      with (String.length (String c'' r'')) in IH by (cbn [String.length]; lia).
    apply IH. cbn [String.length]. lia.
Qed.

Lemma length_app (a b : string) :
  String.length (a ++ b) = (String.length a + String.length b)%nat.
Proof. induction a as [|c r IH]; [reflexivity|]. cbn [append String.length]. now rewrite IH. Qed.

Lemma length_zeros (n : Z) : String.length (zeros n) = Z.to_nat n.
Proof.
  unfold zeros. induction (Z.to_nat n) as [|k IH]; [reflexivity|].
  cbn [repeat_string append String.length]. now rewrite IH.
Qed.

(** [toFixed(1)] of a finite Number below 10^21 in size: an optional minus
    sign, a digit run, a point and one digit. *)
Lemma fixed_one_decimal (x : number) :
  is_finite x = true -> Qle_bool (Qpow10 21) (Qabs (to_Q x)) = false ->
  exists sign whole c,
    fixed x 1 = sign ++ whole ++ "." ++ String c "" /\
    (sign = "" \/ sign = "-") /\ all_digits whole = true /\ is_decimal_digit c = true.
Proof.
  intros Hf Hsmall. unfold fixed, toFixed.
  change ((1 <? 0) || (100 <? 1))%Z with false. cbv beta iota zeta.
  rewrite Hf, Hsmall. cbn [negb]. change (1 =? 0)%Z with false. cbv iota.
  set (n := Qfloor _).
  set (m := if (Z.of_nat (String.length (decimal n)) <=? 1)%Z
            then zeros (1 + 1 - Z.of_nat (String.length (decimal n))) ++ decimal n
            else decimal n).
  assert (Hm : all_digits m = true).
  { subst m. destruct (_ <=? 1)%Z; [|apply decimal_digits].
    apply all_digits_app; [apply zeros_digits | apply decimal_digits]. }
  assert (Hlen : (2 <= String.length m)%nat).
  { subst m. destruct (Z.leb_spec (Z.of_nat (String.length (decimal n))) 1) as [H | H].
    - rewrite length_app, length_zeros. lia.
    - lia. }
  destruct (last_digit m Hm) as (c & Hc & Hcd).
  replace (Z.to_nat (Z.of_nat (String.length m) - 1)) with (String.length m - 1)%nat by lia.
  change (Z.to_nat 1) with 1%nat. rewrite Hc.
  exists (if Qlt_bool (to_Q x) 0 then "-" else ""),
         (substring 0 (String.length m - 1) m), c.
  split; [reflexivity|].
  split; [destruct (Qlt_bool (to_Q x) 0); [now right | now left]|].
  split; [now apply before_last_digit | exact Hcd].
Qed.

End OneDecimal.

(** X15.  Whenever the BMI is a finite Number below 10^21 in size, the BMI
    text of the result is an optional minus sign, one or more digits, a
    decimal point and exactly one digit. *)
Theorem bmi_text_has_one_decimal (data : FormData) :
  is_finite (Spec.BMI_of data) = true ->
  Qle_bool (Qpow10 21) (Qabs (to_Q (Spec.BMI_of data))) = false ->
  exists r sign whole c,
    calculateHealthMetrics data = Normal r /\
    bmi r = sign ++ whole ++ "." ++ String c "" /\
    (sign = "" \/ sign = "-") /\ all_digits whole = true /\ is_decimal_digit c = true.
Proof.
  intros Hf Hsmall.
  destruct (fixed_one_decimal _ Hf Hsmall) as (sign & whole & c & Htext & Hrest).
  eexists. exists sign, whole, c. split; [apply calculateHealthMetrics_eq|].
  cbn [bmi]. now split.
Qed.

Lemma bmi_text_has_one_decimal_witness :
  exists r sign whole c,
    calculateHealthMetrics (Spec.worked_input "maintain") = Normal r /\
    bmi r = sign ++ whole ++ "." ++ String c "" /\
    (sign = "" \/ sign = "-") /\ all_digits whole = true /\ is_decimal_digit c = true.
Proof.
  apply bmi_text_has_one_decimal; reflexivity.
Defined.
